(** * AdvAuth: the session and token lifecycle of [AuthService]

    A shallow embedding of [src/modules/auth/auth.service.ts]: the three
    service methods [register], [login] and [refreshToken] run in a small
    state-and-exception monad over a world made of the three Mongo
    collections, the wall clock and a trace of the calls made to the
    collaborators (stores and token codec).

    The collaborators imported by the service (Mongoose models, the JWT
    helpers, the date helpers, the exception classes, the configuration) are
    defined in other files of the repository; they are modelled below, each
    under a comment that says so.  The [logger] calls of [login] write to the
    process log only and are left out. *)

From stdpp Require Import gmap strings list fin_maps pretty.

Open Scope Z_scope.

(** ** Identifiers, errors and documents *)

(** Mongo [ObjectId]s. *)
Abbreviation ObjectId := N (only parsing).

(** [ErrorCode] is a string enum; the service names two of its members. *)
Abbreviation ErrorCode := string (only parsing).

Definition AUTH_EMAIL_ALREADY_EXISTS : ErrorCode := "AUTH_EMAIL_ALREADY_EXISTS".
Definition AUTH_USER_NOT_FOUND : ErrorCode := "AUTH_USER_NOT_FOUND".

(** The two exception classes the service throws. *)
Inductive HttpKind := BadRequest | Unauthorized.

(** An [AppError] carries its class, the human-readable message and the
    optional machine-readable code of the JavaScript object. *)
Record AppError := {
  kind : HttpKind;
  message : string;
  errorCode : option ErrorCode
}.

(** What a JavaScript [throw] can carry: an [AppError] of the taxonomy, or a
    plain [Error] with a message only. *)
Inductive Exception :=
| Typed (e : AppError)
| Generic (msg : string).

Record UserPreferences := { enable2FA : bool }.

Record UserDocument := {
  u_id : ObjectId;
  u_name : string;
  u_email : string;
  u_password : string;
  userPreferences : UserPreferences
}.

(** The fields of a session other than its [_id], which is the key of the
    collection. *)
Record SessionData := {
  sd_userId : ObjectId;
  sd_userAgent : string;
  sd_expiredAt : Z
}.

(** A session document as the service holds it after [findById] or
    [create]. *)
Record SessionDocument := {
  s_id : ObjectId;
  s_userId : ObjectId;
  s_userAgent : string;
  expiredAt : Z
}.

Definition session_data (s : SessionDocument) : SessionData :=
  {| sd_userId := s_userId s; sd_userAgent := s_userAgent s;
     sd_expiredAt := expiredAt s |}.

Definition session_doc (id : ObjectId) (d : SessionData) : SessionDocument :=
  {| s_id := id; s_userId := sd_userId d; s_userAgent := sd_userAgent d;
     expiredAt := sd_expiredAt d |}.

(** The assignment [session.expiredAt = e] on the in-memory document. *)
Definition set_expiredAt (s : SessionDocument) (e : Z) : SessionDocument :=
  {| s_id := s_id s; s_userId := s_userId s; s_userAgent := s_userAgent s;
     expiredAt := e |}.

Inductive VerificationEnum := EMAIL_VERIFICATION | PASSWORD_RESET.

Record VerificationCodeDocument := {
  v_id : ObjectId;
  v_userId : ObjectId;
  v_type : VerificationEnum;
  expiresAt : Z
}.

(** ** Tokens *)

(** The payload of a token: access tokens carry [{userId, sessionId}],
    refresh tokens [{sessionId}] only. *)
Record Payload := {
  userId : option ObjectId;
  sessionId : ObjectId
}.

Record SignOptions := {
  expiresIn : Z;
  secret : string
}.

(** ** Requests and results *)

Module RegisterDto.
Record t := { name : string; email : string; password : string }.
End RegisterDto.

Module LoginDto.
Record t := { email : string; password : string; userAgent : string }.
End LoginDto.

Module RegisterResult.
Record t := { user : UserDocument }.
End RegisterResult.

(** [user] is [null] and both tokens are empty when a second factor is
    required. *)
Module LoginResult.
Record t := {
  user : option UserDocument;
  mfaRequired : bool;
  accessToken : string;
  refreshToken : string
}.
End LoginResult.

(** [newRefreshToken] is [undefined] when the session was not rotated. *)
Module RefreshResult.
Record t := {
  accessToken : string;
  newRefreshToken : option string
}.
End RefreshResult.

(** ** The world and the monad of the service *)

(** Calls made to the collaborators, in the order they happen. *)
Inductive Event :=
| EvUserExists (email : string)
| EvUserCreate (id : ObjectId)
| EvUserFindOne (email : string)
| EvComparePassword (id : ObjectId)
| EvVerificationCreate (id : ObjectId)
| EvSessionCreate (id : ObjectId)
| EvSessionFindById (id : ObjectId)
| EvSessionSave (id : ObjectId)
| EvJwtSign (p : Payload) (key : string)
| EvJwtVerify (token : string) (key : string).

Record World := {
  users : list UserDocument;
  sessions : gmap N SessionData;
  verificationCodes : list VerificationCodeDocument;
  clock : Z;
  trace : list Event
}.

Definition with_users (us : list UserDocument) (w : World) : World :=
  {| users := us; sessions := sessions w;
     verificationCodes := verificationCodes w; clock := clock w;
     trace := trace w |}.

Definition with_sessions (ss : gmap N SessionData) (w : World) : World :=
  {| users := users w; sessions := ss;
     verificationCodes := verificationCodes w; clock := clock w;
     trace := trace w |}.

Definition with_codes (cs : list VerificationCodeDocument) (w : World)
  : World :=
  {| users := users w; sessions := sessions w;
     verificationCodes := cs; clock := clock w; trace := trace w |}.

Definition record (e : Event) (w : World) : World :=
  {| users := users w; sessions := sessions w;
     verificationCodes := verificationCodes w; clock := clock w;
     trace := trace w ++ [e] |}.

(** Time passing between two calls of the service. *)
Definition advance (d : Z) (w : World) : World :=
  {| users := users w; sessions := sessions w;
     verificationCodes := verificationCodes w; clock := clock w + d;
     trace := trace w |}.

(** How an [async] method ends: with a value or with a thrown exception. *)
Inductive Outcome (A : Type) :=
| Return (a : A)
| Throw (e : Exception).

Arguments Return {A} a.
Arguments Throw {A} e.

(** An [async] method: a world transformer with an outcome.  Writes made
    before a [throw] stay in the world. *)
Definition Async (A : Type) : Type := World -> Outcome A * World.

Definition ret {A} (a : A) : Async A := fun w => (Return a, w).

Definition throw {A} (e : Exception) : Async A := fun w => (Throw e, w).

Definition bind {A B} (m : Async A) (k : A -> Async B) : Async B :=
  fun w =>
    match m w with
    | (Return a, w') => k a w'
    | (Throw e, w') => (Throw e, w')
    end.

Notation "'do' x <- m ; k" := (bind m (fun x => k))
  (at level 10, x name, m at level 100, k at level 200).

Definition get {A} (f : World -> A) : Async A := fun w => (Return (f w), w).

Definition modify (f : World -> World) : Async unit :=
  fun w => (Return tt, f w).

Definition emit (e : Event) : Async unit := modify (record e).

(** The outcome and the final world of a call. *)
Definition outcome {A} (m : Async A) (w : World) : Outcome A := fst (m w).
Definition after {A} (m : Async A) (w : World) : World := snd (m w).

(** ** The collaborators of the service *)

(** What the service imports and does not define: the JWT section of the
    configuration, the hashing primitives behind the user model, the signing
    and verifying primitives behind the JWT helpers (both read the time, which
    is their last argument), the code an [UnauthorizedException] built from a
    message alone carries, and the preferences of a user document created
    without any. *)
Class Deps := {
  JWT_SECRET : string;
  JWT_EXPIRES_IN : Z;
  JWT_REFRESH_SECRET : string;
  JWT_REFRESH_EXPIRES_IN : Z;
  hashValue : string -> string;
  compareValue : string -> string -> bool;
  jwt_sign : Payload -> SignOptions -> Z -> string;
  jwt_verify : string -> string -> Z -> option Payload;
  ACCESS_UNAUTHORIZED : ErrorCode;
  defaultPreferences : UserPreferences
}.

Section Collaborators.
Context `{Deps}.

(** *** Exceptions *)

(** Modelled from the spec: the exception classes of [catch-error.ts] are not
    in the source tree.  Each failure of the taxonomy carries a machine-readable
    code and a human message; the service gives the code of a [BadRequest]
    itself and leaves the one of an [Unauthorized] to the class. *)
Definition BadRequestException (msg : string) (code : ErrorCode) : Exception :=
  Typed {| kind := BadRequest; message := msg; errorCode := Some code |}.

Definition UnauthorizedException (msg : string) (code : option ErrorCode)
  : Exception :=
  Typed {| kind := Unauthorized; message := msg;
           errorCode := Some (default ACCESS_UNAUTHORIZED code) |}.

(** *** Clock and durations *)

(** [Date.now()].  The clock is read, not moved: the reads within one call
    see one instant, and time goes by between calls ([advance]). *)
Definition Date_now : Async Z := get clock.

(** Modelled from the spec: [date-time.ts] is not in the source tree.  The
    rotation threshold is one day, a verification code lives 45 minutes, and
    an expiration date is the current time plus the configured duration; all
    in milliseconds. *)
Definition ONE_DAY_IN_MS : Z := 24 * 60 * 60 * 1000.

Definition fortyFiveMinutesFromNow : Async Z :=
  do now <- Date_now; ret (now + 45 * 60 * 1000).

Definition calculateExpirationDate (expiresIn : Z) : Async Z :=
  do now <- Date_now; ret (now + expiresIn).

(** *** Token codec *)

(** Modelled from the spec: [jwt.ts] is not in the source tree.  Access and
    refresh tokens have their own secret and lifetime; [signJwtToken] signs
    with the access options unless given others; [verifyJwtToken] yields the
    payload or none. *)
Definition accessTokenSignOptions : SignOptions :=
  {| expiresIn := JWT_EXPIRES_IN; secret := JWT_SECRET |}.

Definition refreshTokenSignOptions : SignOptions :=
  {| expiresIn := JWT_REFRESH_EXPIRES_IN; secret := JWT_REFRESH_SECRET |}.

Definition signJwtToken (payload : Payload) (options : option SignOptions)
  : Async string :=
  let opts := default accessTokenSignOptions options in
  do _ <- emit (EvJwtSign payload (secret opts));
  do now <- Date_now;
  ret (jwt_sign payload opts now).

Definition verifyJwtToken (token : string) (key : string)
  : Async (option Payload) :=
  do _ <- emit (EvJwtVerify token key);
  do now <- Date_now;
  ret (jwt_verify token key now).

(** *** Credential store *)

Definition has_email (email : string) (u : UserDocument) : bool :=
  bool_decide (u_email u = email).

Definition fresh_id (ids : list N) : N := fresh (list_to_set ids : gset N).

(** Modelled from the spec: [user.model.ts] is not in the source tree.  Users
    are looked up by email; the email is unique, enforced where the user is
    written, a conflict being the same failure as the one of [register]; the
    store hashes the password and compares a submitted one against the hash. *)
Definition UserModel_exists (email : string) : Async (option ObjectId) :=
  do _ <- emit (EvUserExists email);
  get (fun w => u_id <$> List.find (has_email email) (users w)).

Definition UserModel_findOne (email : string) : Async (option UserDocument) :=
  do _ <- emit (EvUserFindOne email);
  get (fun w => List.find (has_email email) (users w)).

Definition UserModel_create (name email password : string)
  : Async UserDocument :=
  do taken <- get (fun w => List.find (has_email email) (users w));
  match taken with
  | Some _ =>
      throw (BadRequestException "User already exists with this email"
               AUTH_EMAIL_ALREADY_EXISTS)
  | None =>
      do id <- get (fun w => fresh_id (u_id <$> users w));
      let u := {| u_id := id; u_name := name; u_email := email;
                  u_password := hashValue password;
                  userPreferences := defaultPreferences |} in
      do _ <- modify (fun w => with_users (users w ++ [u]) w);
      do _ <- emit (EvUserCreate id);
      ret u
  end.

Definition comparePassword (u : UserDocument) (value : string) : Async bool :=
  do _ <- emit (EvComparePassword (u_id u));
  ret (compareValue value (u_password u)).

(** *** Verification codes *)

(** Modelled from the spec: [verification.model.ts] is not in the source
    tree.  A verification code is an independent record with an owner, a type
    and an expiration. *)
Definition VerificationCodeModel_create
  (owner : ObjectId) (type : VerificationEnum) (expires : Z)
  : Async VerificationCodeDocument :=
  do id <- get (fun w => fresh_id (v_id <$> verificationCodes w));
  let v := {| v_id := id; v_userId := owner; v_type := type;
              expiresAt := expires |} in
  do _ <- modify (fun w => with_codes (verificationCodes w ++ [v]) w);
  do _ <- emit (EvVerificationCreate id);
  ret v.

(** *** Session store *)

(** Modelled from the spec: [session.model.ts] is not in the source tree.  A
    session is created for a user and a user agent with the initial
    expiration now + refresh TTL, fetched by id, and saved back under its
    id. *)
Definition SessionModel_create (owner : ObjectId) (agent : string)
  : Async SessionDocument :=
  do expires <- calculateExpirationDate JWT_REFRESH_EXPIRES_IN;
  do id <- get (fun w => fresh (dom (sessions w)));
  let d := {| sd_userId := owner; sd_userAgent := agent;
              sd_expiredAt := expires |} in
  do _ <- modify (fun w => with_sessions (<[id := d]> (sessions w)) w);
  do _ <- emit (EvSessionCreate id);
  ret (session_doc id d).

Definition SessionModel_findById (id : ObjectId)
  : Async (option SessionDocument) :=
  do _ <- emit (EvSessionFindById id);
  get (fun w => session_doc id <$> sessions w !! id).

Definition SessionModel_save (s : SessionDocument) : Async unit :=
  do _ <- modify (fun w =>
            with_sessions (<[s_id s := session_data s]> (sessions w)) w);
  emit (EvSessionSave (s_id s)).

End Collaborators.

(** ** The service: [AuthService] *)

Section AuthService.
Context `{Deps}.

(** [AuthService.register], lines 14-46. *)
Definition register (registerData : RegisterDto.t) : Async RegisterResult.t :=
  let name := RegisterDto.name registerData in
  let email := RegisterDto.email registerData in
  let password := RegisterDto.password registerData in
  do existingUser <- UserModel_exists email;
  match existingUser with
  | Some _ =>
      throw (BadRequestException "User already exists with this email"
               AUTH_EMAIL_ALREADY_EXISTS)
  | None =>
      do newUser <- UserModel_create name email password;
      let userId := u_id newUser in
      do expires <- fortyFiveMinutesFromNow;
      do verification <-
        VerificationCodeModel_create userId EMAIL_VERIFICATION expires;
      ret {| RegisterResult.user := newUser |}
  end.

(** [AuthService.login], lines 48-110. *)
Definition login (loginData : LoginDto.t) : Async LoginResult.t :=
  let email := LoginDto.email loginData in
  let password := LoginDto.password loginData in
  let userAgent := LoginDto.userAgent loginData in
  do found <- UserModel_findOne email;
  match found with
  | None =>
      throw (BadRequestException "Invalid email or password provided"
               AUTH_USER_NOT_FOUND)
  | Some u =>
      do isPasswordValid <- comparePassword u password;
      if negb isPasswordValid then
        throw (BadRequestException "Invalid email or password provided"
                 AUTH_USER_NOT_FOUND)
      else if enable2FA (userPreferences u) then
        ret {| LoginResult.user := None; LoginResult.mfaRequired := true;
               LoginResult.accessToken := ""; LoginResult.refreshToken := "" |}
      else
        do session <- SessionModel_create (u_id u) userAgent;
        do accessToken <-
          signJwtToken {| userId := Some (u_id u); sessionId := s_id session |}
            None;
        do refreshToken <-
          signJwtToken {| userId := None; sessionId := s_id session |}
            (Some refreshTokenSignOptions);
        ret {| LoginResult.user := Some u;
               LoginResult.accessToken := accessToken;
               LoginResult.refreshToken := refreshToken;
               LoginResult.mfaRequired := false |}
  end.

(** [AuthService.refreshToken], lines 112-159. *)
Definition refreshToken (refreshToken : string) : Async RefreshResult.t :=
  do payload <- verifyJwtToken refreshToken (secret refreshTokenSignOptions);
  match payload with
  | None => throw (UnauthorizedException "Invalid refresh token" None)
  | Some payload =>
      do found <- SessionModel_findById (sessionId payload);
      do now <- Date_now;
      match found with
      | None => throw (UnauthorizedException "Session does not exist" None)
      | Some session =>
          if expiredAt session <=? now then
            throw (UnauthorizedException "Session expired" None)
          else
            let sessionRequireRefresh :=
              expiredAt session - now <=? ONE_DAY_IN_MS in
            do session <-
              (if sessionRequireRefresh then
                 do expires <- calculateExpirationDate JWT_REFRESH_EXPIRES_IN;
                 let session := set_expiredAt session expires in
                 do _ <- SessionModel_save session;
                 ret session
               else ret session);
            do newRefreshToken <-
              (if sessionRequireRefresh then
                 do t <- signJwtToken
                           {| userId := None; sessionId := s_id session |}
                           (Some refreshTokenSignOptions);
                 ret (Some t)
               else ret None);
            do accessToken <-
              signJwtToken
                {| userId := Some (s_userId session);
                   sessionId := s_id session |} None;
            ret {| RefreshResult.accessToken := accessToken;
                   RefreshResult.newRefreshToken := newRefreshToken |}
      end
  end.

End AuthService.

(** ** Runs of the service *)

(** The three entry points behind one type, to speak of every operation of
    the service at once. *)
Inductive Request :=
| Register (registerData : RegisterDto.t)
| Login (loginData : LoginDto.t)
| RefreshToken (token : string).

Inductive Response :=
| Registered (r : RegisterResult.t)
| LoggedIn (r : LoginResult.t)
| Refreshed (r : RefreshResult.t).

Section Runs.
Context `{Deps}.

Definition serve (r : Request) : Async Response :=
  match r with
  | Register d => do x <- register d; ret (Registered x)
  | Login d => do x <- login d; ret (LoggedIn x)
  | RefreshToken t => do x <- refreshToken t; ret (Refreshed x)
  end.

(** A world before any call: empty collections, some starting time. *)
Definition initial (t0 : Z) : World :=
  {| users := []; sessions := ∅; verificationCodes := []; clock := t0;
     trace := [] |}.

(** One step of the system: a call of the service, or time going by. *)
Inductive step : World -> World -> Prop :=
| step_serve (r : Request) (w : World) : step w (after (serve r) w)
| step_tick (d : Z) (w : World) : 0 <= d -> step w (advance d w).

Definition reachable (w : World) : Prop := exists t0, rtc step (initial t0) w.

(** No session outlives the refresh lifetime counted from now. *)
Definition sessions_bounded (w : World) : Prop :=
  forall id d, sessions w !! id = Some d ->
    sd_expiredAt d <= clock w + JWT_REFRESH_EXPIRES_IN.

(** The user the store finds for an email. *)
Definition lookup_user (email : string) (w : World) : option UserDocument :=
  List.find (has_email email) (users w).

(** Some user of the store has this email. *)
Definition email_known (email : string) (w : World) : Prop :=
  exists u, u ∈ users w /\ u_email u = email.

(** The events a call appended to the trace of [w]. *)
Definition appended (w w' : World) (evs : list Event) : Prop :=
  trace w' = trace w ++ evs.

Definition is_sign (e : Event) : bool :=
  match e with EvJwtSign _ _ => true | _ => false end.

Definition is_session_access (e : Event) : bool :=
  match e with
  | EvSessionCreate _ | EvSessionFindById _ | EvSessionSave _ => true
  | _ => false
  end.

(** The worlds a call goes through: after the token was verified, after the
    session was fetched, after the user was looked up and the password
    compared. *)
Definition verified (w : World) (tok : string) : World :=
  record (EvJwtVerify tok JWT_REFRESH_SECRET) w.

Definition fetched (w : World) (tok : string) (id : ObjectId) : World :=
  record (EvSessionFindById id) (verified w tok).

Definition looked_up (w : World) (email : string) : World :=
  record (EvUserFindOne email) w.

Definition compared (w : World) (email : string) (u : UserDocument) : World :=
  record (EvComparePassword (u_id u)) (looked_up w email).

(** The two payloads the service signs. *)
Definition access_payload (owner id : ObjectId) : Payload :=
  {| userId := Some owner; sessionId := id |}.

Definition refresh_payload (id : ObjectId) : Payload :=
  {| userId := None; sessionId := id |}.

(** A session after its rotation at time [now]. *)
Definition rotated (d : SessionData) (now : Z) : SessionData :=
  {| sd_userId := sd_userId d; sd_userAgent := sd_userAgent d;
     sd_expiredAt := now + JWT_REFRESH_EXPIRES_IN |}.

(** The session [login] creates at time [now]. *)
Definition opened (u : UserDocument) (agent : string) (now : Z) : SessionData :=
  {| sd_userId := u_id u; sd_userAgent := agent;
     sd_expiredAt := now + JWT_REFRESH_EXPIRES_IN |}.

(** The user and the verification code [register] creates in [w]. *)
Definition enrolled (d : RegisterDto.t) (w : World) : UserDocument :=
  {| u_id := fresh_id (u_id <$> users w);
     u_name := RegisterDto.name d;
     u_email := RegisterDto.email d;
     u_password := hashValue (RegisterDto.password d);
     userPreferences := defaultPreferences |}.

Definition issued_code (d : RegisterDto.t) (w : World)
  : VerificationCodeDocument :=
  {| v_id := fresh_id (v_id <$> verificationCodes w);
     v_userId := u_id (enrolled d w);
     v_type := EMAIL_VERIFICATION;
     expiresAt := clock w + 45 * 60 * 1000 |}.

(** The failures the service throws. *)
Definition email_taken : Exception :=
  BadRequestException "User already exists with this email"
    AUTH_EMAIL_ALREADY_EXISTS.

Definition invalid_credentials : Exception :=
  BadRequestException "Invalid email or password provided"
    AUTH_USER_NOT_FOUND.

Definition invalid_refresh_token : Exception :=
  UnauthorizedException "Invalid refresh token" None.

Definition session_missing : Exception :=
  UnauthorizedException "Session does not exist" None.

Definition session_expired : Exception :=
  UnauthorizedException "Session expired" None.


End Runs.

(** ** A concrete set of collaborators *)

(** Small executable stand-ins for the collaborators, to run the service on
    concrete inputs: a token is the text [key.user.session.expiry] with
    decimal fields ([-] for no user), a hash is the password behind [h:]. *)
Module Fixture.

Definition show (n : N) : string := pretty n.

Definition digit (a : Ascii.ascii) : option N :=
  let n := Ascii.N_of_ascii a in
  if (48 <=? n)%N && (n <=? 57)%N then Some (n - 48)%N else None.

Fixpoint read_from (acc : N) (s : string) : option N :=
  match s with
  | EmptyString => Some acc
  | String a s' =>
      match digit a with
      | Some k => read_from (10 * acc + k)%N s'
      | None => None
      end
  end.

Definition read (s : string) : option N :=
  match s with
  | EmptyString => None
  | _ => read_from 0%N s
  end.

(** The separator of the fields of a token, the full stop. *)
Definition dot : Ascii.ascii := Ascii.ascii_of_N 46.

Fixpoint fields (cur : string) (s : string) : list string :=
  match s with
  | EmptyString => [String.rev cur]
  | String a s' =>
      if Ascii.eqb a dot then String.rev cur :: fields EmptyString s'
      else fields (String a cur) s'
  end.

Definition sign (p : Payload) (o : SignOptions) (now : Z) : string :=
  secret o +:+ "." +:+
  match userId p with Some u => show u | None => "-" end +:+ "." +:+
  show (sessionId p) +:+ "." +:+ show (Z.to_N (now + expiresIn o)).

Definition verify (token key : string) (now : Z) : option Payload :=
  match fields EmptyString token with
  | [k; u; s; e] =>
      if String.eqb k key then
        match read s, read e with
        | Some sid, Some expiry =>
            if now <? Z.of_N expiry then
              if String.eqb u "-" then
                Some {| userId := None; sessionId := sid |}
              else
                match read u with
                | Some uid => Some {| userId := Some uid; sessionId := sid |}
                | None => None
                end
            else None
        | _, _ => None
        end
      else None
  | _ => None
  end.

Definition MINUTE : Z := 60 * 1000.
Definition DAY : Z := 24 * 60 * MINUTE.

Definition deps : Deps :=
  {| JWT_SECRET := "access-key";
     JWT_EXPIRES_IN := 15 * MINUTE;
     JWT_REFRESH_SECRET := "refresh-key";
     JWT_REFRESH_EXPIRES_IN := 30 * DAY;
     hashValue := fun p => "h:" +:+ p;
     compareValue := fun v h => String.eqb ("h:" +:+ v) h;
     jwt_sign := sign;
     jwt_verify := verify;
     ACCESS_UNAUTHORIZED := "ACCESS_UNAUTHORIZED";
     defaultPreferences := {| enable2FA := false |} |}.

(** The same with a refresh lifetime of one hour, shorter than the rotation
    threshold. *)
Definition short_deps : Deps :=
  {| JWT_SECRET := "access-key";
     JWT_EXPIRES_IN := 15 * MINUTE;
     JWT_REFRESH_SECRET := "refresh-key";
     JWT_REFRESH_EXPIRES_IN := 60 * MINUTE;
     hashValue := fun p => "h:" +:+ p;
     compareValue := fun v h => String.eqb ("h:" +:+ v) h;
     jwt_sign := sign;
     jwt_verify := verify;
     ACCESS_UNAUTHORIZED := "ACCESS_UNAUTHORIZED";
     defaultPreferences := {| enable2FA := false |} |}.

Definition ada : UserDocument :=
  {| u_id := 1%N; u_name := "Ada"; u_email := "ada@example.org";
     u_password := "h:lovelace";
     userPreferences := {| enable2FA := false |} |}.

Definition bob : UserDocument :=
  {| u_id := 2%N; u_name := "Bob"; u_email := "bob@example.org";
     u_password := "h:builder";
     userPreferences := {| enable2FA := true |} |}.

(** A session of [ada] that expires at [expires]. *)
Definition curl_session (expires : Z) : SessionData :=
  {| sd_userId := 1%N; sd_userAgent := "curl"; sd_expiredAt := expires |}.

(** A world at time [now] with two users and the session of [ada] under
    id 7. *)
Definition world (now expires : Z) : World :=
  {| users := [ada; bob];
     sessions := {[ 7%N := curl_session expires ]};
     verificationCodes := [];
     clock := now;
     trace := [] |}.

Definition ada_login : LoginDto.t :=
  {| LoginDto.email := "ada@example.org"; LoginDto.password := "lovelace";
     LoginDto.userAgent := "firefox" |}.

Definition ada_wrong : LoginDto.t :=
  {| LoginDto.email := "ada@example.org"; LoginDto.password := "byron";
     LoginDto.userAgent := "firefox" |}.

Definition bob_login : LoginDto.t :=
  {| LoginDto.email := "bob@example.org"; LoginDto.password := "builder";
     LoginDto.userAgent := "safari" |}.

Definition bob_wrong : LoginDto.t :=
  {| LoginDto.email := "bob@example.org"; LoginDto.password := "wrecker";
     LoginDto.userAgent := "safari" |}.

Definition eve_login : LoginDto.t :=
  {| LoginDto.email := "eve@example.org"; LoginDto.password := "apple";
     LoginDto.userAgent := "lynx" |}.

Definition eve_register : RegisterDto.t :=
  {| RegisterDto.name := "Eve"; RegisterDto.email := "eve@example.org";
     RegisterDto.password := "apple" |}.

Definition ada_register : RegisterDto.t :=
  {| RegisterDto.name := "Ada"; RegisterDto.email := "ada@example.org";
     RegisterDto.password := "lovelace" |}.

(** A refresh token for session 7 that expires at [expiry]. *)
Definition refresh_7 (expiry : N) : string :=
  "refresh-key.-.7." +:+ show expiry.

(** A run from empty collections: [ada] registers and logs in at time 0,
    then twenty-nine and a half days go by. *)
Definition signed_up : World :=
  after (serve (H := deps) (Register ada_register)) (initial 0).

Definition logged_in : World :=
  after (serve (H := deps) (Login ada_login)) signed_up.

Definition month_later : World :=
  advance (29 * DAY + 12 * 60 * MINUTE) logged_in.

(** The session and the refresh token of that login. *)
Definition first_session : SessionData :=
  {| sd_userId := 0%N; sd_userAgent := "firefox"; sd_expiredAt := 30 * DAY |}.

Definition first_refresh_token : string := "refresh-key.-.0.2592000000".

End Fixture.

(** ** Integrity of the collections *)

Section Integrity.
Context `{Deps}.

(** What a call added to the trace. *)
Definition events_of (w w' : World) : list Event :=
  drop (length (trace w)) (trace w').

Definition user_ids (w : World) : list ObjectId := u_id <$> users w.

(** No two users share an email or an id. *)
Definition users_distinct (w : World) : Prop :=
  NoDup (u_email <$> users w) /\ NoDup (user_ids w).

(** Every session and every verification code belongs to a user of the
    store. *)
Definition owners_exist (w : World) : Prop :=
  (forall id d, sessions w !! id = Some d -> sd_userId d ∈ user_ids w)
  /\ (forall v, v ∈ verificationCodes w -> v_userId v ∈ user_ids w).

(** The login request of a user who has just registered. *)
Definition login_of (d : RegisterDto.t) (agent : string) : LoginDto.t :=
  {| LoginDto.email := RegisterDto.email d;
     LoginDto.password := RegisterDto.password d;
     LoginDto.userAgent := agent |}.

End Integrity.

(** The run of [Fixture] under a refresh lifetime of one hour. *)
Module Shortlived.

Definition signed_up : World :=
  after (serve (H := Fixture.short_deps) (Register Fixture.ada_register))
    (initial 0).

Definition logged_in : World :=
  after (serve (H := Fixture.short_deps) (Login Fixture.ada_login)) signed_up.

Definition half_hour_later : World := advance (30 * Fixture.MINUTE) logged_in.

Definition refresh_token : string := "refresh-key.-.0.3600000".

End Shortlived.

(** ** Collaborators that fail *)

(** The calls of the three methods that can fail on their own: the awaited
    calls to the stores and to the password comparison (lines 17, 27, 35,
    52, 64, 85, 121, 139) and the signing of a token (lines 91, 96, 142,
    150).  No method has a [try] around them. *)
Inductive Site :=
| AtUserExists
| AtUserCreate
| AtVerificationCreate
| AtUserFindOne
| AtComparePassword
| AtSessionCreate
| AtSessionFindById
| AtSessionSave
| AtSignAccess
| AtSignRefresh.

(** Which of these calls fail during one call of the service, and with
    what. *)
Definition Faults : Type := Site -> option Exception.

Definition no_faults : Faults := fun _ => None.


Section Rejections.
Context `{Deps}.
Variable faults : Faults.

(** A call to a collaborator: it rejects with what the plan says, having
    done nothing, or goes through. *)
Definition calling {A} (s : Site) (m : Async A) : Async A :=
  match faults s with
  | Some e => throw e
  | None => m
  end.

(** [AuthService.register], lines 14-46, with collaborators that can fail. *)
Definition register_under (registerData : RegisterDto.t)
  : Async RegisterResult.t :=
  let name := RegisterDto.name registerData in
  let email := RegisterDto.email registerData in
  let password := RegisterDto.password registerData in
  do existingUser <- calling AtUserExists (UserModel_exists email);
  match existingUser with
  | Some _ =>
      throw (BadRequestException "User already exists with this email"
               AUTH_EMAIL_ALREADY_EXISTS)
  | None =>
      do newUser <- calling AtUserCreate (UserModel_create name email password);
      let userId := u_id newUser in
      do expires <- fortyFiveMinutesFromNow;
      do verification <-
        calling AtVerificationCreate
          (VerificationCodeModel_create userId EMAIL_VERIFICATION expires);
      ret {| RegisterResult.user := newUser |}
  end.

(** [AuthService.login], lines 48-110, with collaborators that can fail. *)
Definition login_under (loginData : LoginDto.t) : Async LoginResult.t :=
  let email := LoginDto.email loginData in
  let password := LoginDto.password loginData in
  let userAgent := LoginDto.userAgent loginData in
  do found <- calling AtUserFindOne (UserModel_findOne email);
  match found with
  | None =>
      throw (BadRequestException "Invalid email or password provided"
               AUTH_USER_NOT_FOUND)
  | Some u =>
      do isPasswordValid <-
        calling AtComparePassword (comparePassword u password);
      if negb isPasswordValid then
        throw (BadRequestException "Invalid email or password provided"
                 AUTH_USER_NOT_FOUND)
      else if enable2FA (userPreferences u) then
        ret {| LoginResult.user := None; LoginResult.mfaRequired := true;
               LoginResult.accessToken := ""; LoginResult.refreshToken := "" |}
      else
        do session <-
          calling AtSessionCreate (SessionModel_create (u_id u) userAgent);
        do accessToken <-
          calling AtSignAccess
            (signJwtToken
               {| userId := Some (u_id u); sessionId := s_id session |} None);
        do refreshToken <-
          calling AtSignRefresh
            (signJwtToken {| userId := None; sessionId := s_id session |}
               (Some refreshTokenSignOptions));
        ret {| LoginResult.user := Some u;
               LoginResult.accessToken := accessToken;
               LoginResult.refreshToken := refreshToken;
               LoginResult.mfaRequired := false |}
  end.

(** [AuthService.refreshToken], lines 112-159, with collaborators that can
    fail.  [verifyJwtToken] reports its failure in its result. *)
Definition refreshToken_under (refreshToken : string) : Async RefreshResult.t :=
  do payload <- verifyJwtToken refreshToken (secret refreshTokenSignOptions);
  match payload with
  | None => throw (UnauthorizedException "Invalid refresh token" None)
  | Some payload =>
      do found <-
        calling AtSessionFindById (SessionModel_findById (sessionId payload));
      do now <- Date_now;
      match found with
      | None => throw (UnauthorizedException "Session does not exist" None)
      | Some session =>
          if expiredAt session <=? now then
            throw (UnauthorizedException "Session expired" None)
          else
            let sessionRequireRefresh :=
              expiredAt session - now <=? ONE_DAY_IN_MS in
            do session <-
              (if sessionRequireRefresh then
                 do expires <- calculateExpirationDate JWT_REFRESH_EXPIRES_IN;
                 let session := set_expiredAt session expires in
                 do _ <- calling AtSessionSave (SessionModel_save session);
                 ret session
               else ret session);
            do newRefreshToken <-
              (if sessionRequireRefresh then
                 do t <- calling AtSignRefresh
                           (signJwtToken
                              {| userId := None; sessionId := s_id session |}
                              (Some refreshTokenSignOptions));
                 ret (Some t)
               else ret None);
            do accessToken <-
              calling AtSignAccess
                (signJwtToken
                   {| userId := Some (s_userId session);
                      sessionId := s_id session |} None);
            ret {| RefreshResult.accessToken := accessToken;
                   RefreshResult.newRefreshToken := newRefreshToken |}
      end
  end.

Definition serve_under (r : Request) : Async Response :=
  match r with
  | Register d => do x <- register_under d; ret (Registered x)
  | Login d => do x <- login_under d; ret (LoggedIn x)
  | RefreshToken t => do x <- refreshToken_under t; ret (Refreshed x)
  end.

End Rejections.

(** Plans for single failures: the store losing its connection at one call,
    the signing rejecting its key. *)
Module Outage.

Definition connection_lost : Exception := Generic "connection lost".

Definition bad_key : Exception :=
  Generic "secretOrPrivateKey must have a value".


Definition at_code_creation : Faults :=
  fun s =>
    match s with AtVerificationCreate => Some connection_lost | _ => None end.

Definition at_signing : Faults :=
  fun s => match s with AtSignAccess => Some bad_key | _ => None end.

End Outage.

(** * Properties *)

Section Properties.
Context `{Deps}.

(** Unfold one call of the service down to the world it reads and writes. *)
Ltac run :=
  unfold outcome, after, serve, refreshToken, login, register,
    verifyJwtToken, signJwtToken, SessionModel_findById, SessionModel_save,
    SessionModel_create, UserModel_exists, UserModel_findOne, UserModel_create,
    comparePassword, VerificationCodeModel_create, calculateExpirationDate,
    fortyFiveMinutesFromNow, Date_now, lookup_user, emit, modify, get, bind,
    ret, throw in *;
  cbn [fst snd secret expiresIn refreshTokenSignOptions accessTokenSignOptions
       default clock users sessions verificationCodes trace record
       with_sessions with_users with_codes] in *.

Lemma one_day_positive : 0 < ONE_DAY_IN_MS.
Proof. unfold ONE_DAY_IN_MS. lia. Qed.

(** ** The branches of [refreshToken] *)

Lemma refreshToken_invalid tok w :
  jwt_verify tok (secret refreshTokenSignOptions) (clock w) = None ->
  refreshToken tok w = (Throw invalid_refresh_token, verified w tok).
Proof. intros Hv. run. rewrite Hv. reflexivity. Qed.

Lemma refreshToken_no_session tok w p :
  jwt_verify tok (secret refreshTokenSignOptions) (clock w) = Some p ->
  sessions w !! sessionId p = None ->
  refreshToken tok w = (Throw session_missing, fetched w tok (sessionId p)).
Proof. intros Hv Hs. run. rewrite Hv. cbn. rewrite Hs. reflexivity. Qed.

Lemma refreshToken_expired tok w p d :
  jwt_verify tok (secret refreshTokenSignOptions) (clock w) = Some p ->
  sessions w !! sessionId p = Some d ->
  sd_expiredAt d <= clock w ->
  refreshToken tok w = (Throw session_expired, fetched w tok (sessionId p)).
Proof.
  intros Hv Hs Hle. run. rewrite Hv. cbn. rewrite Hs. cbn.
  destruct (Z.leb_spec (sd_expiredAt d) (clock w)); [reflexivity | lia].
Qed.

Lemma refreshToken_rotate tok w p d :
  jwt_verify tok (secret refreshTokenSignOptions) (clock w) = Some p ->
  sessions w !! sessionId p = Some d ->
  clock w < sd_expiredAt d ->
  sd_expiredAt d - clock w <= ONE_DAY_IN_MS ->
  refreshToken tok w =
    (Return
       {| RefreshResult.accessToken :=
            jwt_sign (access_payload (sd_userId d) (sessionId p))
              accessTokenSignOptions (clock w);
          RefreshResult.newRefreshToken :=
            Some (jwt_sign (refresh_payload (sessionId p))
                    refreshTokenSignOptions (clock w)) |},
     record (EvJwtSign (access_payload (sd_userId d) (sessionId p)) JWT_SECRET)
       (record (EvJwtSign (refresh_payload (sessionId p)) JWT_REFRESH_SECRET)
          (record (EvSessionSave (sessionId p))
             (with_sessions
                (<[sessionId p := rotated d (clock w)]> (sessions w))
                (fetched w tok (sessionId p)))))).
Proof.
  intros Hv Hs Hlt Hle. run. rewrite Hv. cbn. rewrite Hs. cbn.
  destruct (Z.leb_spec (sd_expiredAt d) (clock w)); [lia |].
  destruct (Z.leb_spec (sd_expiredAt d - clock w) ONE_DAY_IN_MS); [| lia].
  reflexivity.
Qed.

Lemma refreshToken_keep tok w p d :
  jwt_verify tok (secret refreshTokenSignOptions) (clock w) = Some p ->
  sessions w !! sessionId p = Some d ->
  ONE_DAY_IN_MS < sd_expiredAt d - clock w ->
  refreshToken tok w =
    (Return
       {| RefreshResult.accessToken :=
            jwt_sign (access_payload (sd_userId d) (sessionId p))
              accessTokenSignOptions (clock w);
          RefreshResult.newRefreshToken := None |},
     record (EvJwtSign (access_payload (sd_userId d) (sessionId p)) JWT_SECRET)
       (fetched w tok (sessionId p))).
Proof.
  intros Hv Hs Hgt. run. rewrite Hv. cbn. rewrite Hs. cbn.
  pose proof one_day_positive.
  destruct (Z.leb_spec (sd_expiredAt d) (clock w)); [lia |].
  destruct (Z.leb_spec (sd_expiredAt d - clock w) ONE_DAY_IN_MS); [lia |].
  reflexivity.
Qed.

(** ** The branches of [login] *)

Lemma login_unknown d w :
  lookup_user (LoginDto.email d) w = None ->
  login d w = (Throw invalid_credentials, looked_up w (LoginDto.email d)).
Proof. intros Hu. run. rewrite Hu. reflexivity. Qed.

Lemma login_wrong_password d w u :
  lookup_user (LoginDto.email d) w = Some u ->
  compareValue (LoginDto.password d) (u_password u) = false ->
  login d w = (Throw invalid_credentials, compared w (LoginDto.email d) u).
Proof. intros Hu Hc. run. rewrite Hu. cbn. rewrite Hc. reflexivity. Qed.

Lemma login_mfa d w u :
  lookup_user (LoginDto.email d) w = Some u ->
  compareValue (LoginDto.password d) (u_password u) = true ->
  enable2FA (userPreferences u) = true ->
  login d w =
    (Return {| LoginResult.user := None; LoginResult.mfaRequired := true;
               LoginResult.accessToken := ""; LoginResult.refreshToken := "" |},
     compared w (LoginDto.email d) u).
Proof.
  intros Hu Hc Hm. run. rewrite Hu. cbn. rewrite Hc. cbn. rewrite Hm.
  reflexivity.
Qed.

Lemma login_session d w u :
  lookup_user (LoginDto.email d) w = Some u ->
  compareValue (LoginDto.password d) (u_password u) = true ->
  enable2FA (userPreferences u) = false ->
  let sid := fresh (dom (sessions w)) in
  login d w =
    (Return
       {| LoginResult.user := Some u;
          LoginResult.mfaRequired := false;
          LoginResult.accessToken :=
            jwt_sign (access_payload (u_id u) sid) accessTokenSignOptions
              (clock w);
          LoginResult.refreshToken :=
            jwt_sign (refresh_payload sid) refreshTokenSignOptions (clock w) |},
     record (EvJwtSign (refresh_payload sid) JWT_REFRESH_SECRET)
       (record (EvJwtSign (access_payload (u_id u) sid) JWT_SECRET)
          (record (EvSessionCreate sid)
             (with_sessions
                (<[sid := opened u (LoginDto.userAgent d) (clock w)]>
                   (sessions w))
                (compared w (LoginDto.email d) u))))).
Proof.
  intros Hu Hc Hm sid. run. rewrite Hu. cbn. rewrite Hc. cbn. rewrite Hm.
  reflexivity.
Qed.

(** ** The branches of [register] *)

Lemma register_taken d w u :
  lookup_user (RegisterDto.email d) w = Some u ->
  register d w =
    (Throw email_taken, record (EvUserExists (RegisterDto.email d)) w).
Proof. intros Hu. run. rewrite Hu. reflexivity. Qed.

Lemma register_fresh d w :
  lookup_user (RegisterDto.email d) w = None ->
  register d w =
    (Return {| RegisterResult.user := enrolled d w |},
     record (EvVerificationCreate (v_id (issued_code d w)))
       (with_codes (verificationCodes w ++ [issued_code d w])
          (record (EvUserCreate (u_id (enrolled d w)))
             (with_users (users w ++ [enrolled d w])
                (record (EvUserExists (RegisterDto.email d)) w))))).
Proof.
  intros Hu. run. rewrite Hu. cbn [fmap option_fmap option_map users record].
  rewrite Hu. reflexivity.
Qed.

(** ** What the store finds *)

Lemma lookup_user_None email w :
  lookup_user email w = None <-> ~ email_known email w.
Proof.
  unfold lookup_user, email_known. split.
  - intros Hnone (u & Hin & Heq).
    apply list_elem_of_In in Hin.
    pose proof (find_none _ _ Hnone u Hin) as Hf.
    unfold has_email in Hf. rewrite bool_decide_eq_false in Hf. done.
  - intros Hno. destruct (List.find _ _) as [u|] eqn:Hf; [| done].
    apply find_some in Hf as [Hin Hb].
    exfalso. apply Hno. exists u. split.
    + by apply list_elem_of_In.
    + unfold has_email in Hb. by apply bool_decide_eq_true in Hb.
Qed.

Lemma lookup_user_Some email w u :
  lookup_user email w = Some u -> u ∈ users w /\ u_email u = email.
Proof.
  unfold lookup_user. intros Hf. apply find_some in Hf as [Hin Hb]. split.
  - by apply list_elem_of_In.
  - unfold has_email in Hb. by apply bool_decide_eq_true in Hb.
Qed.

Lemma email_known_lookup email w :
  email_known email w -> exists u, lookup_user email w = Some u.
Proof.
  intros Hk. destruct (lookup_user email w) as [u|] eqn:Hu; [by exists u |].
  by apply lookup_user_None in Hu.
Qed.

(** ** Projections of a run *)

Lemma run_outcome {A} (m : Async A) w o w' : m w = (o, w') -> outcome m w = o.
Proof. unfold outcome. by intros ->. Qed.

Lemma run_after {A} (m : Async A) w o w' : m w = (o, w') -> after m w = w'.
Proof. unfold after. by intros ->. Qed.

Lemma after_serve_register d w :
  after (serve (Register d)) w = after (register d) w.
Proof.
  unfold after, serve, bind, ret. by destruct (register d w) as [[?|?] ?].
Qed.

Lemma after_serve_login d w :
  after (serve (Login d)) w = after (login d) w.
Proof.
  unfold after, serve, bind, ret. by destruct (login d w) as [[?|?] ?].
Qed.

Lemma after_serve_refresh t w :
  after (serve (RefreshToken t)) w = after (refreshToken t) w.
Proof.
  unfold after, serve, bind, ret. by destruct (refreshToken t w) as [[?|?] ?].
Qed.

(** ** Claims on [refreshToken] *)

(** C1. A [refreshToken] call with a token that verifies under the refresh
    options and whose session expires strictly after now returns a fresh
    access token for [{userId: session.userId, sessionId}].  A new refresh
    token for the same session is returned if and only if
    [session.expiredAt - now <= ONE_DAY_IN_MS]; in that case the session is
    saved with [expiredAt = now + refresh TTL]; otherwise [newRefreshToken]
    is undefined and the sessions are left as they were. *)
Theorem refreshToken_live_session tok w p d :
  jwt_verify tok (secret refreshTokenSignOptions) (clock w) = Some p ->
  sessions w !! sessionId p = Some d ->
  clock w < sd_expiredAt d ->
  let now := clock w in
  let sid := sessionId p in
  let w' := after (refreshToken tok) w in
  exists r,
    outcome (refreshToken tok) w = Return r
    /\ RefreshResult.accessToken r =
         jwt_sign {| userId := Some (sd_userId d); sessionId := sid |}
           accessTokenSignOptions now
    /\ (is_Some (RefreshResult.newRefreshToken r)
        <-> sd_expiredAt d - now <= ONE_DAY_IN_MS)
    /\ (sd_expiredAt d - now <= ONE_DAY_IN_MS ->
        RefreshResult.newRefreshToken r =
          Some (jwt_sign {| userId := None; sessionId := sid |}
                  refreshTokenSignOptions now)
        /\ sessions w' =
             <[sid := {| sd_userId := sd_userId d;
                         sd_userAgent := sd_userAgent d;
                         sd_expiredAt := now + JWT_REFRESH_EXPIRES_IN |}]>
               (sessions w)
        /\ EvSessionSave sid ∈ trace w')
    /\ (ONE_DAY_IN_MS < sd_expiredAt d - now ->
        RefreshResult.newRefreshToken r = None /\ sessions w' = sessions w).
Proof.
  intros Hv Hs Hlt now sid w'. subst now sid w'.
  destruct (Z_le_gt_dec (sd_expiredAt d - clock w) ONE_DAY_IN_MS) as [Hle|Hgt].
  - pose proof (refreshToken_rotate tok w p d Hv Hs Hlt Hle) as Hrun.
    rewrite (run_after _ _ _ _ Hrun). eexists.
    split; [exact (run_outcome _ _ _ _ Hrun) |]. cbn.
    split; [reflexivity |]. split; [split; [done | eauto] |].
    split; [| lia]. intros _. split; [reflexivity |]. split; [reflexivity |].
    set_solver.
  - apply Z.gt_lt in Hgt.
    pose proof (refreshToken_keep tok w p d Hv Hs Hgt) as Hrun.
    rewrite (run_after _ _ _ _ Hrun). eexists.
    split; [exact (run_outcome _ _ _ _ Hrun) |]. cbn.
    split; [reflexivity |]. split; [split; [by intros [? ?] | lia] |].
    split; [lia |]. done.
Qed.

(** C5, as the code has it.  For a [refreshToken] call whose token verifies
    and whose session exists, the call fails with the Unauthorized failure
    "Session expired" exactly when [session.expiredAt <= now] (at or before
    the current time); on that failure users, sessions and verification codes
    are as before, and the call made only the verification and the lookup:
    nothing was saved and no token was signed. *)
Theorem refreshToken_session_expired tok w p d :
  jwt_verify tok (secret refreshTokenSignOptions) (clock w) = Some p ->
  sessions w !! sessionId p = Some d ->
  let w' := after (refreshToken tok) w in
  let failure :=
    Throw (Typed {| kind := Unauthorized; message := "Session expired";
                    errorCode := Some ACCESS_UNAUTHORIZED |}) in
  (outcome (refreshToken tok) w = failure <-> sd_expiredAt d <= clock w)
  /\ (outcome (refreshToken tok) w = failure ->
      users w' = users w /\ sessions w' = sessions w
      /\ verificationCodes w' = verificationCodes w
      /\ sessions w' !! sessionId p = Some d
      /\ appended w w'
           [EvJwtVerify tok JWT_REFRESH_SECRET;
            EvSessionFindById (sessionId p)]).
Proof.
  intros Hv Hs w' failure. subst w' failure.
  assert (Hiff : outcome (refreshToken tok) w = Throw session_expired
                 <-> sd_expiredAt d <= clock w).
  { split.
    - intros Hout. destruct (Z_le_gt_dec (sd_expiredAt d) (clock w)) as [|Hgt];
        [done |]. exfalso. apply Z.gt_lt in Hgt.
      destruct (Z_le_gt_dec (sd_expiredAt d - clock w) ONE_DAY_IN_MS)
        as [Hday|Hday].
      + rewrite (run_outcome _ _ _ _
                   (refreshToken_rotate tok w p d Hv Hs Hgt Hday)) in Hout.
        discriminate.
      + apply Z.gt_lt in Hday.
        rewrite (run_outcome _ _ _ _
                   (refreshToken_keep tok w p d Hv Hs Hday)) in Hout.
        discriminate.
    - intros Hle.
      exact (run_outcome _ _ _ _ (refreshToken_expired tok w p d Hv Hs Hle)). }
  split; [exact Hiff |]. intros Hout. apply Hiff in Hout.
  rewrite (run_after _ _ _ _ (refreshToken_expired tok w p d Hv Hs Hout)).
  cbn. split_and!; try done. unfold appended. cbn. by rewrite <- app_assoc.
Qed.

(** C6. A [refreshToken] call whose token does not verify under the refresh
    options fails with the Unauthorized failure "Invalid refresh token", and
    the failing call made no access to the session store: the verification
    is the only thing it did.  In every call the verification comes first,
    and anything after it (the session lookup to begin with) happens only
    when the token verified. *)
Theorem refreshToken_rejects_before_lookup tok w :
  let w' := after (refreshToken tok) w in
  let checked := jwt_verify tok (secret refreshTokenSignOptions) (clock w) in
  (checked = None ->
   outcome (refreshToken tok) w =
     Throw (Typed {| kind := Unauthorized; message := "Invalid refresh token";
                     errorCode := Some ACCESS_UNAUTHORIZED |})
   /\ appended w w' [EvJwtVerify tok JWT_REFRESH_SECRET]
   /\ sessions w' = sessions w)
  /\ (exists evs,
        appended w w' (EvJwtVerify tok JWT_REFRESH_SECRET :: evs)
        /\ (Exists (fun e => is_session_access e = true) evs ->
            is_Some checked)
        /\ (forall p, checked = Some p ->
            exists rest, evs = EvSessionFindById (sessionId p) :: rest)).
Proof.
  intros w' checked. subst w'.
  destruct checked as [p|] eqn:Hv; subst checked.
  - split; [done |].
    assert (exists o rest,
      refreshToken tok w = (o, rest) /\
      exists evs, trace rest =
        trace w ++ EvJwtVerify tok JWT_REFRESH_SECRET
                :: EvSessionFindById (sessionId p) :: evs)
      as (o & rest & Hrun & evs & Htr).
    { destruct (sessions w !! sessionId p) as [d|] eqn:Hs.
      - destruct (Z_le_gt_dec (sd_expiredAt d) (clock w)) as [Hle|Hgt].
        + eexists _, _.
          split; [exact (refreshToken_expired _ _ _ _ Hv Hs Hle) |].
          exists []. cbn. by rewrite <- app_assoc.
        + apply Z.gt_lt in Hgt.
          destruct (Z_le_gt_dec (sd_expiredAt d - clock w) ONE_DAY_IN_MS)
            as [Hday|Hday].
          * eexists _, _.
            split; [exact (refreshToken_rotate _ _ _ _ Hv Hs Hgt Hday) |].
            eexists. cbn. rewrite <- !app_assoc. cbn. reflexivity.
          * apply Z.gt_lt in Hday. eexists _, _.
            split; [exact (refreshToken_keep _ _ _ _ Hv Hs Hday) |].
            eexists. cbn. rewrite <- !app_assoc. cbn. reflexivity.
      - eexists _, _. split; [exact (refreshToken_no_session _ _ _ Hv Hs) |].
        exists []. cbn. by rewrite <- app_assoc. }
    rewrite (run_after _ _ _ _ Hrun). eexists. split; [exact Htr |].
    split; [eauto |]. intros q [= <-]. eauto.
  - pose proof (refreshToken_invalid tok w Hv) as Hrun.
    rewrite (run_after _ _ _ _ Hrun). split.
    + intros _. split; [exact (run_outcome _ _ _ _ Hrun) |]. done.
    + exists []. split; [done |]. split; [| done].
      intros Hex. by apply Exists_nil in Hex.
Qed.

(** ** Claims on [login] *)

(** C2. A login with an email that no user has and a login with the email
    of an existing user but a password that does not verify fail with the
    same error: code [AUTH_USER_NOT_FOUND] and the same message. *)
Theorem login_failures_uniform d1 w1 d2 w2 u :
  ~ email_known (LoginDto.email d1) w1 ->
  lookup_user (LoginDto.email d2) w2 = Some u ->
  compareValue (LoginDto.password d2) (u_password u) = false ->
  let failure :=
    Throw (Typed {| kind := BadRequest;
                    message := "Invalid email or password provided";
                    errorCode := Some AUTH_USER_NOT_FOUND |}) in
  outcome (login d1) w1 = failure
  /\ outcome (login d2) w2 = failure
  /\ outcome (login d1) w1 = outcome (login d2) w2.
Proof.
  intros Hno Hu Hc failure. subst failure.
  apply lookup_user_None in Hno.
  rewrite (run_outcome _ _ _ _ (login_unknown d1 w1 Hno)).
  rewrite (run_outcome _ _ _ _ (login_wrong_password d2 w2 u Hu Hc)).
  done.
Qed.

(** C3. A login of an existing user whose password verifies and whose
    [enable2FA] flag is set returns exactly
    [{user: null, mfaRequired: true, accessToken: "", refreshToken: ""}] and
    creates no session: the sessions are as before and the call touched
    neither the session store nor the token codec. *)
Theorem login_mfa_short_circuit d w u :
  lookup_user (LoginDto.email d) w = Some u ->
  compareValue (LoginDto.password d) (u_password u) = true ->
  enable2FA (userPreferences u) = true ->
  let w' := after (login d) w in
  outcome (login d) w =
    Return {| LoginResult.user := None; LoginResult.mfaRequired := true;
              LoginResult.accessToken := ""; LoginResult.refreshToken := "" |}
  /\ sessions w' = sessions w
  /\ appended w w'
       [EvUserFindOne (LoginDto.email d); EvComparePassword (u_id u)].
Proof.
  intros Hu Hc Hm w'. subst w'.
  pose proof (login_mfa d w u Hu Hc Hm) as Hrun.
  rewrite (run_after _ _ _ _ Hrun), (run_outcome _ _ _ _ Hrun).
  split_and!; try done. unfold appended. cbn. by rewrite <- app_assoc.
Qed.

(** C4. A login of an existing user whose password verifies and whose
    [enable2FA] flag is off creates exactly one session, under an id that was
    free, with the user's id, the submitted user agent and
    [expiredAt = now + refresh TTL]; it returns
    [{user, accessToken, refreshToken, mfaRequired: false}], the access token
    signed for [{userId, sessionId}] and the refresh token for [{sessionId}]
    alone, both with the id of the session just created. *)
Theorem login_opens_session d w u :
  lookup_user (LoginDto.email d) w = Some u ->
  compareValue (LoginDto.password d) (u_password u) = true ->
  enable2FA (userPreferences u) = false ->
  let w' := after (login d) w in
  exists sid,
    sessions w !! sid = None
    /\ sessions w' =
         <[sid := {| sd_userId := u_id u;
                     sd_userAgent := LoginDto.userAgent d;
                     sd_expiredAt := clock w + JWT_REFRESH_EXPIRES_IN |}]>
           (sessions w)
    /\ size (sessions w') = S (size (sessions w))
    /\ filter (fun e => is_session_access e = true)
         (drop (length (trace w)) (trace w')) = [EvSessionCreate sid]
    /\ outcome (login d) w =
         Return
           {| LoginResult.user := Some u;
              LoginResult.mfaRequired := false;
              LoginResult.accessToken :=
                jwt_sign {| userId := Some (u_id u); sessionId := sid |}
                  accessTokenSignOptions (clock w);
              LoginResult.refreshToken :=
                jwt_sign {| userId := None; sessionId := sid |}
                  refreshTokenSignOptions (clock w) |}.
Proof.
  intros Hu Hc Hm w'. subst w'.
  pose proof (login_session d w u Hu Hc Hm) as Hrun. cbn zeta in Hrun.
  rewrite (run_after _ _ _ _ Hrun), (run_outcome _ _ _ _ Hrun).
  assert (Hfree : sessions w !! fresh (dom (sessions w)) = None).
  { apply not_elem_of_dom. apply is_fresh. }
  exists (fresh (dom (sessions w))). cbn.
  split; [exact Hfree |]. split; [reflexivity |].
  split; [by apply map_size_insert_None |]. split; [| reflexivity].
  rewrite <- !app_assoc. by rewrite drop_app_length.
Qed.

(** C10. The MFA gate comes after the credentials: a login of an existing
    user with [enable2FA] set and a password that does not verify fails with
    [AUTH_USER_NOT_FOUND], and whenever a login returns with
    [mfaRequired: true] the submitted password verified against the user
    found for the email. *)
Theorem login_mfa_gate_after_password d w :
  (forall u,
     lookup_user (LoginDto.email d) w = Some u ->
     enable2FA (userPreferences u) = true ->
     compareValue (LoginDto.password d) (u_password u) = false ->
     outcome (login d) w =
       Throw (Typed {| kind := BadRequest;
                       message := "Invalid email or password provided";
                       errorCode := Some AUTH_USER_NOT_FOUND |}))
  /\ (forall r,
        outcome (login d) w = Return r ->
        LoginResult.mfaRequired r = true ->
        exists u,
          lookup_user (LoginDto.email d) w = Some u
          /\ compareValue (LoginDto.password d) (u_password u) = true
          /\ enable2FA (userPreferences u) = true).
Proof.
  split.
  - intros u Hu _ Hc.
    exact (run_outcome _ _ _ _ (login_wrong_password d w u Hu Hc)).
  - intros r Hout Hmfa.
    destruct (lookup_user (LoginDto.email d) w) as [u|] eqn:Hu.
    + destruct (compareValue (LoginDto.password d) (u_password u)) eqn:Hc.
      * destruct (enable2FA (userPreferences u)) eqn:Hm; [by exists u |].
        pose proof (login_session d w u Hu Hc Hm) as Hrun. cbn zeta in Hrun.
        rewrite (run_outcome _ _ _ _ Hrun) in Hout.
        injection Hout as <-. discriminate.
      * rewrite (run_outcome _ _ _ _ (login_wrong_password d w u Hu Hc))
          in Hout.
        discriminate.
    + rewrite (run_outcome _ _ _ _ (login_unknown d w Hu)) in Hout.
      discriminate.
Qed.

(** ** Claims on [register] *)

(** C7. If a user with the submitted email exists, [register] fails with
    [AUTH_EMAIL_ALREADY_EXISTS] and creates neither a user nor a verification
    code.  Otherwise it creates the user, creates exactly one verification
    code of type [EMAIL_VERIFICATION] owned by the new user and expiring 45
    minutes after now, returns the created user, and signs no token. *)
Theorem register_creates_user_and_code d w :
  let w' := after (register d) w in
  (email_known (RegisterDto.email d) w ->
   outcome (register d) w =
     Throw (Typed {| kind := BadRequest;
                     message := "User already exists with this email";
                     errorCode := Some AUTH_EMAIL_ALREADY_EXISTS |})
   /\ users w' = users w
   /\ verificationCodes w' = verificationCodes w)
  /\ (~ email_known (RegisterDto.email d) w ->
      exists u v,
        outcome (register d) w = Return {| RegisterResult.user := u |}
        /\ users w' = users w ++ [u]
        /\ u_name u = RegisterDto.name d
        /\ u_email u = RegisterDto.email d
        /\ verificationCodes w' = verificationCodes w ++ [v]
        /\ v_type v = EMAIL_VERIFICATION
        /\ v_userId v = u_id u
        /\ expiresAt v = clock w + 45 * 60 * 1000
        /\ sessions w' = sessions w
        /\ filter (fun e => is_sign e = true)
             (drop (length (trace w)) (trace w')) = []).
Proof.
  intros w'. subst w'. split.
  - intros Hk. apply email_known_lookup in Hk as [u Hu].
    pose proof (register_taken d w u Hu) as Hrun.
    by rewrite (run_after _ _ _ _ Hrun), (run_outcome _ _ _ _ Hrun).
  - intros Hno. apply lookup_user_None in Hno.
    pose proof (register_fresh d w Hno) as Hrun.
    rewrite (run_after _ _ _ _ Hrun), (run_outcome _ _ _ _ Hrun).
    exists (enrolled d w), (issued_code d w). cbn.
    split_and!; try done.
    rewrite <- !app_assoc. by rewrite drop_app_length.
Qed.

(** ** Every operation: sessions over time *)

(** What a call can do to the clock and to the sessions: nothing to the
    clock; to the sessions nothing, or one write of a session that expires
    at now + refresh TTL. *)
Lemma serve_sessions r w :
  clock (after (serve r) w) = clock w
  /\ (sessions (after (serve r) w) = sessions w
      \/ exists id d,
           sd_expiredAt d = clock w + JWT_REFRESH_EXPIRES_IN
           /\ sessions (after (serve r) w) = <[id := d]> (sessions w)).
Proof.
  destruct r as [d|d|tok].
  - rewrite after_serve_register.
    destruct (lookup_user (RegisterDto.email d) w) as [u|] eqn:Hu.
    + rewrite (run_after _ _ _ _ (register_taken d w u Hu)). auto.
    + rewrite (run_after _ _ _ _ (register_fresh d w Hu)). auto.
  - rewrite after_serve_login.
    destruct (lookup_user (LoginDto.email d) w) as [u|] eqn:Hu.
    + destruct (compareValue (LoginDto.password d) (u_password u)) eqn:Hc.
      * destruct (enable2FA (userPreferences u)) eqn:Hm.
        -- rewrite (run_after _ _ _ _ (login_mfa d w u Hu Hc Hm)). auto.
        -- pose proof (login_session d w u Hu Hc Hm) as Hrun.
           cbn zeta in Hrun. rewrite (run_after _ _ _ _ Hrun).
           split; [done |]. right. eexists _, _. split; [| reflexivity]. done.
      * rewrite (run_after _ _ _ _ (login_wrong_password d w u Hu Hc)). auto.
    + rewrite (run_after _ _ _ _ (login_unknown d w Hu)). auto.
  - rewrite after_serve_refresh.
    destruct (jwt_verify tok (secret refreshTokenSignOptions) (clock w))
      as [p|] eqn:Hv.
    + destruct (sessions w !! sessionId p) as [d|] eqn:Hs.
      * destruct (Z_le_gt_dec (sd_expiredAt d) (clock w)) as [Hle|Hgt].
        -- rewrite (run_after _ _ _ _ (refreshToken_expired _ _ _ _ Hv Hs Hle)).
           auto.
        -- apply Z.gt_lt in Hgt.
           destruct (Z_le_gt_dec (sd_expiredAt d - clock w) ONE_DAY_IN_MS)
             as [Hday|Hday].
           ++ rewrite (run_after _ _ _ _
                         (refreshToken_rotate _ _ _ _ Hv Hs Hgt Hday)).
              split; [done |]. right. eexists _, _.
              split; [| reflexivity]. done.
           ++ apply Z.gt_lt in Hday.
              rewrite (run_after _ _ _ _
                         (refreshToken_keep _ _ _ _ Hv Hs Hday)).
              auto.
      * rewrite (run_after _ _ _ _ (refreshToken_no_session _ _ _ Hv Hs)). auto.
    + rewrite (run_after _ _ _ _ (refreshToken_invalid _ _ Hv)). auto.
Qed.

Lemma step_bounded w w' :
  step w w' -> sessions_bounded w -> sessions_bounded w'.
Proof.
  intros Hstep Hb. destruct Hstep as [r w | t w Ht].
  - destruct (serve_sessions r w) as [Hclock [Hsame | (id & d & Hd & Hins)]];
      intros id' d' Hl; rewrite Hclock.
    + rewrite Hsame in Hl. eauto.
    + rewrite Hins in Hl. destruct (decide (id = id')) as [->|Hne].
      * rewrite lookup_insert_eq in Hl. injection Hl as <-. lia.
      * rewrite lookup_insert_ne in Hl by done. eauto.
  - intros id d Hl. cbn in *. specialize (Hb id d Hl). lia.
Qed.

Lemma reachable_bounded w : reachable w -> sessions_bounded w.
Proof.
  intros [t0 Hrtc]. revert w Hrtc. apply rtc_ind_r.
  - intros id d Hl. cbn in Hl. by rewrite lookup_empty in Hl.
  - intros y z _ Hstep Hb. exact (step_bounded y z Hstep Hb).
Qed.

(** C8. [Session.expiredAt] never decreases.  In every world the service
    can reach from empty collections (by calls of [register], [login] and
    [refreshToken], with time going forward in between), every operation
    leaves every existing session in place with an [expiredAt] at least as
    late as before; in particular a rotation in [refreshToken] assigns an
    expiration no earlier than the current one. *)
Theorem expiredAt_never_decreases w :
  reachable w ->
  (forall r id d,
     sessions w !! id = Some d ->
     exists d',
       sessions (after (serve r) w) !! id = Some d'
       /\ sd_expiredAt d <= sd_expiredAt d')
  /\ (forall tok p d,
        jwt_verify tok (secret refreshTokenSignOptions) (clock w) = Some p ->
        sessions w !! sessionId p = Some d ->
        clock w < sd_expiredAt d ->
        sd_expiredAt d - clock w <= ONE_DAY_IN_MS ->
        exists d',
          sessions (after (refreshToken tok) w) !! sessionId p = Some d'
          /\ sd_expiredAt d' = clock w + JWT_REFRESH_EXPIRES_IN
          /\ sd_expiredAt d <= sd_expiredAt d').
Proof.
  intros Hreach. pose proof (reachable_bounded w Hreach) as Hb. split.
  - intros r id d Hl.
    destruct (serve_sessions r w) as [_ [Hsame | (id' & d' & Hd & Hins)]].
    + rewrite Hsame. exists d. split; [done | lia].
    + rewrite Hins. destruct (decide (id' = id)) as [->|Hne].
      * exists d'. rewrite lookup_insert_eq. split; [done |].
        specialize (Hb id d Hl). lia.
      * exists d. rewrite lookup_insert_ne by done. split; [done | lia].
  - intros tok p d Hv Hs Hlt Hday.
    rewrite (run_after _ _ _ _ (refreshToken_rotate _ _ _ _ Hv Hs Hlt Hday)).
    cbn. exists (rotated d (clock w)). rewrite lookup_insert_eq.
    split; [done |]. split; [done |]. cbn. specialize (Hb _ _ Hs). lia.
Qed.

End Properties.

(** * The service on concrete inputs *)

Section Instances.
#[local] Existing Instance Fixture.deps.

(** C1 at a session with four seconds left: the call rotates. *)
Lemma refreshToken_live_session_witness :
  exists r,
    outcome (refreshToken (Fixture.refresh_7 9000)) (Fixture.world 1000 5000)
      = Return r
    /\ RefreshResult.accessToken r = "access-key.1.7.901000"
    /\ RefreshResult.newRefreshToken r = Some "refresh-key.-.7.2592001000"
    /\ sessions
         (after (refreshToken (Fixture.refresh_7 9000))
            (Fixture.world 1000 5000)) !! 7%N
       = Some (Fixture.curl_session (1000 + 30 * Fixture.DAY)).
Proof.
  destruct (refreshToken_live_session (Fixture.refresh_7 9000)
              (Fixture.world 1000 5000) (refresh_payload 7)
              (Fixture.curl_session 5000))
    as (r & Hout & Hacc & _ & Hrot & _).
  - vm_compute. reflexivity.
  - vm_compute. reflexivity.
  - vm_compute. reflexivity.
  - destruct Hrot as (Hnew & Hsess & _).
    + vm_compute. discriminate.
    + exists r. split; [exact Hout |]. split; [exact Hacc |].
      split; [exact Hnew |]. rewrite Hsess. vm_compute. reflexivity.
Defined.

(** C2 at an unknown email and at a wrong password for [bob]. *)
Lemma login_failures_uniform_witness :
  outcome (login Fixture.eve_login) (Fixture.world 1000 5000)
  = outcome (login Fixture.bob_wrong) (Fixture.world 2000 5000).
Proof.
  apply (login_failures_uniform Fixture.eve_login (Fixture.world 1000 5000)
           Fixture.bob_wrong (Fixture.world 2000 5000) Fixture.bob).
  - apply lookup_user_None. vm_compute. reflexivity.
  - vm_compute. reflexivity.
  - vm_compute. reflexivity.
Defined.

(** C3 at [bob], who has two-factor authentication on. *)
Lemma login_mfa_short_circuit_witness :
  outcome (login Fixture.bob_login) (Fixture.world 1000 5000)
  = Return {| LoginResult.user := None; LoginResult.mfaRequired := true;
              LoginResult.accessToken := ""; LoginResult.refreshToken := "" |}
  /\ sessions (after (login Fixture.bob_login) (Fixture.world 1000 5000))
     = sessions (Fixture.world 1000 5000).
Proof.
  destruct (login_mfa_short_circuit Fixture.bob_login
              (Fixture.world 1000 5000) Fixture.bob) as (Hout & Hsess & _).
  - vm_compute. reflexivity.
  - vm_compute. reflexivity.
  - vm_compute. reflexivity.
  - split; [exact Hout | exact Hsess].
Defined.

(** C4 at [ada], who has it off. *)
Lemma login_opens_session_witness :
  exists sid,
    sessions (Fixture.world 1000 5000) !! sid = None
    /\ size (sessions (after (login Fixture.ada_login)
                         (Fixture.world 1000 5000))) = 2%nat
    /\ exists r,
         outcome (login Fixture.ada_login) (Fixture.world 1000 5000) = Return r
         /\ LoginResult.mfaRequired r = false.
Proof.
  destruct (login_opens_session Fixture.ada_login (Fixture.world 1000 5000)
              Fixture.ada) as (sid & Hfree & _ & Hsize & _ & Hout).
  - vm_compute. reflexivity.
  - vm_compute. reflexivity.
  - vm_compute. reflexivity.
  - exists sid. split; [exact Hfree |]. split.
    + rewrite Hsize. vm_compute. reflexivity.
    + eexists. split; [exact Hout | reflexivity].
Defined.

(** C5 as the claim has it fails where the session expires exactly now: the
    call fails with "Session expired" although the expiration is not past. *)
Lemma session_expired_at_the_boundary :
  jwt_verify (Fixture.refresh_7 9000) (secret refreshTokenSignOptions)
    (clock (Fixture.world 5000 5000)) = Some (refresh_payload 7)
  /\ sessions (Fixture.world 5000 5000) !! 7%N
     = Some (Fixture.curl_session 5000)
  /\ ~ (outcome (refreshToken (Fixture.refresh_7 9000))
          (Fixture.world 5000 5000)
        = Throw (Typed {| kind := Unauthorized; message := "Session expired";
                          errorCode := Some ACCESS_UNAUTHORIZED |})
        <-> sd_expiredAt (Fixture.curl_session 5000)
            < clock (Fixture.world 5000 5000)).
Proof.
  split; [vm_compute; reflexivity |]. split; [vm_compute; reflexivity |].
  intros [Hpast _].
  assert (Hlt : sd_expiredAt (Fixture.curl_session 5000)
                < clock (Fixture.world 5000 5000)).
  { apply Hpast. vm_compute. reflexivity. }
  vm_compute in Hlt. discriminate.
Qed.

(** C5 as amended, at the same input. *)
Lemma refreshToken_session_expired_witness :
  outcome (refreshToken (Fixture.refresh_7 9000)) (Fixture.world 5000 5000)
  = Throw (Typed {| kind := Unauthorized; message := "Session expired";
                    errorCode := Some ACCESS_UNAUTHORIZED |})
  /\ sessions (after (refreshToken (Fixture.refresh_7 9000))
                 (Fixture.world 5000 5000))
     = sessions (Fixture.world 5000 5000).
Proof.
  destruct (refreshToken_session_expired (Fixture.refresh_7 9000)
              (Fixture.world 5000 5000) (refresh_payload 7)
              (Fixture.curl_session 5000)) as [Hiff Hsame].
  - vm_compute. reflexivity.
  - vm_compute. reflexivity.
  - assert (Hout : outcome (refreshToken (Fixture.refresh_7 9000))
                     (Fixture.world 5000 5000)
                   = Throw (Typed {| kind := Unauthorized;
                                     message := "Session expired";
                                     errorCode := Some ACCESS_UNAUTHORIZED |})).
    { apply Hiff. vm_compute. discriminate. }
    split; [exact Hout |]. destruct (Hsame Hout) as (_ & Hsess & _).
    exact Hsess.
Defined.

(** C6 at a token that is no token at all. *)
Lemma refreshToken_rejects_before_lookup_witness :
  outcome (refreshToken "garbage") (Fixture.world 1000 5000)
  = Throw (Typed {| kind := Unauthorized; message := "Invalid refresh token";
                    errorCode := Some ACCESS_UNAUTHORIZED |})
  /\ trace (after (refreshToken "garbage") (Fixture.world 1000 5000))
     = [EvJwtVerify "garbage" "refresh-key"].
Proof.
  destruct (refreshToken_rejects_before_lookup "garbage"
              (Fixture.world 1000 5000)) as [Hfail _].
  destruct Hfail as (Hout & Htrace & _).
  - vm_compute. reflexivity.
  - split; [exact Hout | exact Htrace].
Defined.

(** C7 at a new email. *)
Lemma register_creates_user_and_code_witness :
  exists u v,
    outcome (register Fixture.eve_register) (Fixture.world 1000 5000)
    = Return {| RegisterResult.user := u |}
    /\ u_email u = "eve@example.org"
    /\ verificationCodes
         (after (register Fixture.eve_register) (Fixture.world 1000 5000))
       = [v]
    /\ v_userId v = u_id u
    /\ expiresAt v = 2701000.
Proof.
  destruct (register_creates_user_and_code Fixture.eve_register
              (Fixture.world 1000 5000)) as [_ Hnew].
  destruct Hnew
    as (u & v & Hout & _ & _ & Hmail & Hcodes & _ & Hown & Hexp & _).
  - apply lookup_user_None. vm_compute. reflexivity.
  - exists u, v. split; [exact Hout |]. split; [exact Hmail |].
    split; [exact Hcodes |]. split; [exact Hown | exact Hexp].
Defined.

Lemma month_later_reachable : reachable Fixture.month_later.
Proof.
  exists 0. unfold Fixture.month_later, Fixture.logged_in, Fixture.signed_up.
  eapply rtc_r.
  - eapply rtc_r; [apply rtc_once; apply step_serve | apply step_serve].
  - apply step_tick. vm_compute. discriminate.
Defined.

(** C8 on the session of a login, refreshed half a day before it expires. *)
Lemma expiredAt_never_decreases_witness :
  exists d',
    sessions
      (after (serve (RefreshToken Fixture.first_refresh_token))
         Fixture.month_later) !! 0%N = Some d'
    /\ sd_expiredAt Fixture.first_session <= sd_expiredAt d'.
Proof.
  apply (proj1 (expiredAt_never_decreases Fixture.month_later
                  month_later_reachable)).
  vm_compute. reflexivity.
Defined.

(** C10 at [bob] with a wrong password. *)
Lemma login_mfa_gate_after_password_witness :
  outcome (login Fixture.bob_wrong) (Fixture.world 1000 5000)
  = Throw (Typed {| kind := BadRequest;
                    message := "Invalid email or password provided";
                    errorCode := Some AUTH_USER_NOT_FOUND |}).
Proof.
  apply (proj1 (login_mfa_gate_after_password Fixture.bob_wrong
                  (Fixture.world 1000 5000)) Fixture.bob).
  - vm_compute. reflexivity.
  - vm_compute. reflexivity.
  - vm_compute. reflexivity.
Defined.


(** ** Further runs *)

(** Two days left: a fresh access token, no new refresh token, the session
    untouched. *)
Example refresh_two_days_left :
  refreshToken (Fixture.refresh_7 900000000)
    (Fixture.world 1000 (1000 + 2 * Fixture.DAY))
  = (Return {| RefreshResult.accessToken := "access-key.1.7.901000";
               RefreshResult.newRefreshToken := None |},
     record (EvJwtSign (access_payload 1 7) "access-key")
       (fetched (Fixture.world 1000 (1000 + 2 * Fixture.DAY))
          (Fixture.refresh_7 900000000) 7)).
Proof. vm_compute. reflexivity. Qed.

(** Twelve hours left: a new refresh token, and the session now expires
    thirty days from now. *)
Example refresh_twelve_hours_left :
  let w := Fixture.world 1000 (1000 + 12 * 60 * Fixture.MINUTE) in
  outcome (refreshToken (Fixture.refresh_7 900000000)) w
  = Return {| RefreshResult.accessToken := "access-key.1.7.901000";
              RefreshResult.newRefreshToken :=
                Some "refresh-key.-.7.2592001000" |}
  /\ sessions (after (refreshToken (Fixture.refresh_7 900000000)) w) !! 7%N
     = Some (Fixture.curl_session (1000 + 30 * Fixture.DAY)).
Proof. split; vm_compute; reflexivity. Qed.

(** An access token does not pass for a refresh token. *)
Example access_token_is_no_refresh_token :
  outcome (refreshToken "access-key.1.7.901000") (Fixture.world 1000 5000)
  = Throw invalid_refresh_token.
Proof. vm_compute. reflexivity. Qed.

(** The token of a login refreshes the session of that login. *)
Example login_then_refresh :
  match outcome (login Fixture.ada_login) Fixture.signed_up with
  | Return r =>
      LoginResult.refreshToken r = Fixture.first_refresh_token
      /\ outcome (refreshToken (LoginResult.refreshToken r)) Fixture.month_later
         = Return {| RefreshResult.accessToken := "access-key.0.0.2549700000";
                     RefreshResult.newRefreshToken :=
                       Some "refresh-key.-.0.5140800000" |}
  | Throw _ => False
  end.
Proof. vm_compute. split; reflexivity. Qed.

End Instances.

(** Why C8 speaks of reachable worlds: with a refresh lifetime of one hour,
    a stored session with twelve hours left, which no run of the service
    under that lifetime produces, would be cut down to one hour by a
    rotation. *)
Remark rotation_relies_on_the_bound :
  let w := Fixture.world 1000 (1000 + 12 * 60 * Fixture.MINUTE) in
  ~ sessions_bounded (H := Fixture.short_deps) w
  /\ sessions
       (after (refreshToken (H := Fixture.short_deps)
                 (Fixture.refresh_7 900000000)) w) !! 7%N
     = Some (Fixture.curl_session (1000 + 60 * Fixture.MINUTE)).
Proof.
  split; [| vm_compute; reflexivity].
  intros Hb. specialize (Hb 7%N _ eq_refl). vm_compute in Hb. by apply Hb.
Qed.

(** * Further properties of the service *)

Section Further.
Context `{Deps}.

(** Case analysis along the branches of the three methods; each case leaves
    [Hrun], the equation of the whole run. *)
Ltac refresh_branches tok w :=
  let p := fresh "p" in
  let d := fresh "d" in
  destruct (jwt_verify tok (secret refreshTokenSignOptions) (clock w))
    as [p|] eqn:Hv;
  [ destruct (sessions w !! sessionId p) as [d|] eqn:Hs;
    [ destruct (Z_le_gt_dec (sd_expiredAt d) (clock w)) as [Hle|Hgt];
      [ pose proof (refreshToken_expired tok w p d Hv Hs Hle) as Hrun
      | apply Z.gt_lt in Hgt;
        destruct (Z_le_gt_dec (sd_expiredAt d - clock w) ONE_DAY_IN_MS)
          as [Hday|Hday];
        [ pose proof (refreshToken_rotate tok w p d Hv Hs Hgt Hday) as Hrun
        | apply Z.gt_lt in Hday;
          pose proof (refreshToken_keep tok w p d Hv Hs Hday) as Hrun ] ]
    | pose proof (refreshToken_no_session tok w p Hv Hs) as Hrun ]
  | pose proof (refreshToken_invalid tok w Hv) as Hrun ].

Ltac login_branches d w :=
  let u := fresh "u" in
  destruct (lookup_user (LoginDto.email d) w) as [u|] eqn:Hu;
  [ destruct (compareValue (LoginDto.password d) (u_password u)) eqn:Hc;
    [ destruct (enable2FA (userPreferences u)) eqn:Hm;
      [ pose proof (login_mfa d w u Hu Hc Hm) as Hrun
      | pose proof (login_session d w u Hu Hc Hm) as Hrun;
        cbn zeta in Hrun ]
    | pose proof (login_wrong_password d w u Hu Hc) as Hrun ]
  | pose proof (login_unknown d w Hu) as Hrun ].

Ltac register_branches d w :=
  let u := fresh "u" in
  destruct (lookup_user (RegisterDto.email d) w) as [u|] eqn:Hu;
  [ pose proof (register_taken d w u Hu) as Hrun
  | pose proof (register_fresh d w Hu) as Hrun ].

Ltac use_run Hrun :=
  rewrite ?(run_after _ _ _ _ Hrun), ?(run_outcome _ _ _ _ Hrun) in *.

(** Compute the events a run appended. *)
Ltac events :=
  unfold events_of, fetched, verified, compared, looked_up;
  cbn [trace record with_sessions with_users with_codes];
  rewrite <- ?app_assoc; rewrite drop_app_length; cbn [app].

Lemma fresh_id_fresh (ids : list N) : fresh_id ids ∉ ids.
Proof.
  unfold fresh_id. intros Hin.
  apply (is_fresh (list_to_set ids : gset N)). by apply elem_of_list_to_set.
Qed.

Lemma find_app_last {A} (f : A -> bool) (l : list A) (x : A) :
  List.find f l = None -> f x = true -> List.find f (l ++ [x]) = Some x.
Proof.
  intros Hnone Hx. induction l as [|a l IH]; cbn in *.
  - by rewrite Hx.
  - destruct (f a); [discriminate | by apply IH].
Qed.

Lemma find_app_first {A} (f : A -> bool) (l k : list A) (x : A) :
  List.find f l = Some x -> List.find f (l ++ k) = Some x.
Proof.
  intros Hx. induction l as [|a l IH]; cbn in *; [discriminate |].
  destruct (f a); [done | by apply IH].
Qed.

(** ** The branch [refreshToken] takes when the session is gone *)

(** A [refreshToken] call whose token verifies but whose session id is not
    in the store fails with the Unauthorized failure "Session does not
    exist", whatever else the store holds; it leaves the three collections as
    they were and makes no call after the lookup. *)
Theorem refreshToken_unknown_session tok w p :
  jwt_verify tok (secret refreshTokenSignOptions) (clock w) = Some p ->
  sessions w !! sessionId p = None ->
  let w' := after (refreshToken tok) w in
  outcome (refreshToken tok) w =
    Throw (Typed {| kind := Unauthorized; message := "Session does not exist";
                    errorCode := Some ACCESS_UNAUTHORIZED |})
  /\ users w' = users w
  /\ sessions w' = sessions w
  /\ verificationCodes w' = verificationCodes w
  /\ events_of w w' =
       [EvJwtVerify tok JWT_REFRESH_SECRET; EvSessionFindById (sessionId p)].
Proof.
  intros Hv Hs w'. subst w'.
  pose proof (refreshToken_no_session tok w p Hv Hs) as Hrun. use_run Hrun.
  split_and!; try done. by events.
Qed.

(** ** Each method keeps to its own collections *)

(** No call moves the clock.  [register] never touches the sessions;
    [login] and [refreshToken] never touch the users or the verification
    codes; [refreshToken] adds no session and removes none. *)
Theorem calls_keep_to_their_collections r w :
  let w' := after (serve r) w in
  clock w' = clock w
  /\ match r with
     | Register _ => sessions w' = sessions w
     | Login _ =>
         users w' = users w /\ verificationCodes w' = verificationCodes w
     | RefreshToken _ =>
         users w' = users w /\ verificationCodes w' = verificationCodes w
         /\ dom (sessions w') = dom (sessions w)
     end.
Proof.
  intros w'. subst w'. destruct r as [d|d|tok].
  - rewrite after_serve_register. register_branches d w; by use_run Hrun.
  - rewrite after_serve_login. login_branches d w; by use_run Hrun.
  - rewrite after_serve_refresh. refresh_branches tok w; use_run Hrun;
      try done.
    cbn. split_and!; try done. rewrite dom_insert_L.
    apply subseteq_union_1_L, singleton_subseteq_l, elem_of_dom. eauto.
Qed.

(** ** What a call does to the sessions *)

(** The four things a call can do to the collections: nothing; enrol a
    user and issue the verification code; open one session under a free id;
    rotate an existing session. *)
Lemma serve_cases r w :
  let w' := after (serve r) w in
  (users w' = users w /\ verificationCodes w' = verificationCodes w
   /\ sessions w' = sessions w)
  \/ (exists d,
        r = Register d
        /\ lookup_user (RegisterDto.email d) w = None
        /\ users w' = users w ++ [enrolled d w]
        /\ verificationCodes w' = verificationCodes w ++ [issued_code d w]
        /\ sessions w' = sessions w)
  \/ (exists d u,
        r = Login d
        /\ lookup_user (LoginDto.email d) w = Some u
        /\ sessions w !! fresh (dom (sessions w)) = None
        /\ users w' = users w
        /\ verificationCodes w' = verificationCodes w
        /\ sessions w' =
             <[fresh (dom (sessions w)) :=
                 opened u (LoginDto.userAgent d) (clock w)]> (sessions w))
  \/ (exists tok id d,
        r = RefreshToken tok
        /\ sessions w !! id = Some d
        /\ users w' = users w
        /\ verificationCodes w' = verificationCodes w
        /\ sessions w' = <[id := rotated d (clock w)]> (sessions w)).
Proof.
  intros w'. subst w'. destruct r as [d|d|tok].
  - rewrite after_serve_register. register_branches d w; use_run Hrun; auto.
    right. left. by exists d.
  - rewrite after_serve_login. login_branches d w; use_run Hrun; auto.
    right. right. left. exists d, u. split_and!; try done.
    apply not_elem_of_dom, is_fresh.
  - rewrite after_serve_refresh. refresh_branches tok w; use_run Hrun; auto.
    right. right. right. by exists tok, (sessionId p), d.
Qed.

(** No call removes a session or hands it to someone else: every session of
    the store is still there after the call, with the same user id and the
    same user agent.  Only its expiration can have changed. *)
Theorem session_keeps_its_owner r w id d :
  sessions w !! id = Some d ->
  exists d',
    sessions (after (serve r) w) !! id = Some d'
    /\ sd_userId d' = sd_userId d
    /\ sd_userAgent d' = sd_userAgent d.
Proof.
  intros Hl.
  destruct (serve_cases r w)
    as [(_ & _ & Hsame) | [(l & _ & _ & _ & _ & Hsame)
       | [(l & u & _ & _ & Hfree & _ & _ & Hins)
         | (tok & id' & d0 & _ & Hl' & _ & _ & Hins)]]].
  - rewrite Hsame. by exists d.
  - rewrite Hsame. by exists d.
  - rewrite Hins. exists d. rewrite lookup_insert_ne; [done |].
    intros Heq. rewrite Heq in Hfree. congruence.
  - rewrite Hins. destruct (decide (id' = id)) as [->|Hne].
    + rewrite lookup_insert_eq. exists (rotated d0 (clock w)).
      assert (d0 = d) as -> by congruence. done.
    + rewrite lookup_insert_ne by done. by exists d.
Qed.

(** [login] opens a session only for a user it found, whose password
    verified and who has two-factor authentication off: in every other case
    the sessions are left as they were.  It never opens more than one, and a
    result with [mfaRequired: false] names that user. *)
Theorem login_opens_session_only_after_checks d w :
  let w' := after (login d) w in
  (sessions w' <> sessions w ->
   exists u,
     lookup_user (LoginDto.email d) w = Some u
     /\ compareValue (LoginDto.password d) (u_password u) = true
     /\ enable2FA (userPreferences u) = false)
  /\ (forall r,
        outcome (login d) w = Return r ->
        LoginResult.mfaRequired r = false ->
        exists u,
          LoginResult.user r = Some u
          /\ lookup_user (LoginDto.email d) w = Some u
          /\ compareValue (LoginDto.password d) (u_password u) = true)
  /\ (size (sessions w') <= S (size (sessions w)))%nat.
Proof.
  intros w'. subst w'. login_branches d w; use_run Hrun.
  - split_and!; [done | | cbn; lia]. intros r [= <-]. discriminate.
  - split_and!.
    + intros _. by exists u.
    + intros r [= <-] _. by exists u.
    + cbn. rewrite map_size_insert_None; [lia |].
      apply not_elem_of_dom, is_fresh.
  - split_and!; [done | discriminate | cbn; lia].
  - split_and!; [done | discriminate | cbn; lia].
Qed.

(** ** Invariants of the collections *)

Lemma step_integrity w w' :
  step w w' ->
  users_distinct w /\ owners_exist w ->
  users_distinct w' /\ owners_exist w'.
Proof.
  intros Hstep [[Hmail Hids] [Hsess Hcodes]].
  destruct Hstep as [r w | t w Ht]; [| done].
  unfold users_distinct, owners_exist, user_ids in *.
  destruct (serve_cases r w)
    as [(Hu & Hc & Hs) | [(d & _ & Hnone & Hu & Hc & Hs)
       | [(d & u & _ & Hfound & _ & Hu & Hc & Hs)
         | (tok & id & d & _ & Hl & Hu & Hc & Hs)]]];
    rewrite Hu, Hc, Hs.
  - done.
  - rewrite !fmap_app. cbn [fmap list_fmap]. split; [split |].
    + apply NoDup_app. split; [done |]. split; [| apply NoDup_singleton].
      intros m Hin Hnew. apply list_elem_of_singleton in Hnew. subst m.
      apply list_elem_of_fmap in Hin as (u & Hmail' & Hin).
      apply lookup_user_None in Hnone. apply Hnone. by exists u.
    + apply NoDup_app. split; [done |]. split; [| apply NoDup_singleton].
      intros i Hin Hnew. apply list_elem_of_singleton in Hnew. subst i.
      by apply fresh_id_fresh in Hin.
    + split.
      * intros id s Hl. apply elem_of_app. left. eauto.
      * intros v Hv. apply elem_of_app in Hv as [Hv | Hv].
        -- apply elem_of_app. left. eauto.
        -- apply list_elem_of_singleton in Hv. subst v.
           apply elem_of_app. right. by apply list_elem_of_singleton.
  - split; [done |]. split; [| done]. intros id s Hl.
    destruct (decide (fresh (dom (sessions w)) = id)) as [<-|Hne].
    + rewrite lookup_insert_eq in Hl. injection Hl as <-. cbn.
      apply lookup_user_Some in Hfound as [Hin _].
      apply list_elem_of_fmap. by exists u.
    + rewrite lookup_insert_ne in Hl by done. eauto.
  - split; [done |]. split; [| done]. intros id' s Hl'.
    destruct (decide (id = id')) as [<-|Hne].
    + rewrite lookup_insert_eq in Hl'. injection Hl' as <-. cbn. eauto.
    + rewrite lookup_insert_ne in Hl' by done. eauto.
Qed.

(** In every world the service can reach from empty collections, no two
    users share an email or an id, and every session and every verification
    code belongs to a user of the store. *)
Theorem reachable_collections_consistent w :
  reachable w ->
  NoDup (u_email <$> users w)
  /\ NoDup (u_id <$> users w)
  /\ (forall id d, sessions w !! id = Some d ->
        exists u, u ∈ users w /\ u_id u = sd_userId d)
  /\ (forall v, v ∈ verificationCodes w ->
        exists u, u ∈ users w /\ u_id u = v_userId v).
Proof.
  intros [t0 Hrtc].
  assert (Hinv : users_distinct w /\ owners_exist w).
  { revert w Hrtc. apply rtc_ind_r.
    - split; [split; apply NoDup_nil_2 |]. split.
      + intros id d Hl. cbn in Hl. by rewrite lookup_empty in Hl.
      + intros v Hv. cbn in Hv. by apply not_elem_of_nil in Hv.
    - intros y z _ Hstep Hy. exact (step_integrity y z Hstep Hy). }
  destruct Hinv as [[Hmail Hids] [Hsess Hcodes]]. unfold user_ids in *.
  split_and!; try done.
  - intros id d Hl. specialize (Hsess id d Hl).
    apply list_elem_of_fmap in Hsess as (u & Heq & Hin). eauto.
  - intros v Hv. specialize (Hcodes v Hv).
    apply list_elem_of_fmap in Hcodes as (u & Heq & Hin). eauto.
Qed.

(** ** Calls in sequence *)

Lemma register_then_lookup d w :
  lookup_user (RegisterDto.email d) w = None ->
  lookup_user (RegisterDto.email d) (after (register d) w)
  = Some (enrolled d w).
Proof.
  intros Hnone. rewrite (run_after _ _ _ _ (register_fresh d w Hnone)).
  unfold lookup_user in *. cbn. apply find_app_last; [done |].
  unfold has_email. by apply bool_decide_eq_true.
Qed.

(** Registering an email twice: once a registration went through, another
    one with the same email (whatever the name and the password) fails with
    [AUTH_EMAIL_ALREADY_EXISTS] and adds neither a user nor a verification
    code; the first one added exactly one user. *)
Theorem register_twice d d' w :
  ~ email_known (RegisterDto.email d) w ->
  RegisterDto.email d' = RegisterDto.email d ->
  let w1 := after (register d) w in
  let w2 := after (register d') w1 in
  outcome (register d') w1 =
    Throw (Typed {| kind := BadRequest;
                    message := "User already exists with this email";
                    errorCode := Some AUTH_EMAIL_ALREADY_EXISTS |})
  /\ users w2 = users w1
  /\ verificationCodes w2 = verificationCodes w1
  /\ length (users w1) = S (length (users w)).
Proof.
  intros Hno Hsame w1 w2. subst w1 w2. apply lookup_user_None in Hno.
  pose proof (register_then_lookup d w Hno) as Hfound.
  rewrite <- Hsame in Hfound.
  pose proof (register_taken d' _ _ Hfound) as Hrun. use_run Hrun.
  split_and!; try done.
  rewrite (run_after _ _ _ _ (register_fresh d w Hno)). cbn.
  rewrite length_app. cbn. lia.
Qed.

(** Registering, then logging in with the same email and password: if the
    hash of the password compares equal to it and new users have two-factor
    authentication off, the login succeeds for the user just created and
    opens a session of that user. *)
Theorem register_then_login d agent w :
  ~ email_known (RegisterDto.email d) w ->
  compareValue (RegisterDto.password d) (hashValue (RegisterDto.password d))
  = true ->
  enable2FA defaultPreferences = false ->
  let w1 := after (register d) w in
  let w2 := after (login (login_of d agent)) w1 in
  exists r sid,
    outcome (register d) w = Return {| RegisterResult.user := enrolled d w |}
    /\ outcome (login (login_of d agent)) w1 = Return r
    /\ LoginResult.user r = Some (enrolled d w)
    /\ LoginResult.mfaRequired r = false
    /\ sessions w1 !! sid = None
    /\ sessions w2 !! sid
       = Some {| sd_userId := u_id (enrolled d w); sd_userAgent := agent;
                 sd_expiredAt := clock w + JWT_REFRESH_EXPIRES_IN |}.
Proof.
  intros Hno Hhash Hpref w1 w2. subst w1 w2. apply lookup_user_None in Hno.
  pose proof (register_then_lookup d w Hno) as Hfound.
  pose proof (login_session (login_of d agent) _ (enrolled d w) Hfound Hhash
                Hpref) as Hrun. cbn zeta in Hrun.
  use_run Hrun. eexists _, _.
  split; [exact (run_outcome _ _ _ _ (register_fresh d w Hno)) |].
  split; [reflexivity |]. split; [reflexivity |]. split; [reflexivity |].
  split; [apply not_elem_of_dom, is_fresh |].
  cbn. rewrite lookup_insert_eq. unfold opened. cbn.
  by rewrite (run_after _ _ _ _ (register_fresh d w Hno)).
Qed.

(** Logging in, then refreshing with the token of that login [t]
    milliseconds later, the token still verifying: the refresh succeeds as
    long as less than the refresh lifetime has gone by, with an access token
    for the user and the session of the login, and a new refresh token
    exactly when at most one day of the lifetime is left; once the lifetime
    has gone by it fails with "Session expired". *)
Theorem login_then_refreshToken d w u t :
  lookup_user (LoginDto.email d) w = Some u ->
  compareValue (LoginDto.password d) (u_password u) = true ->
  enable2FA (userPreferences u) = false ->
  0 <= t ->
  let sid := fresh (dom (sessions w)) in
  let token :=
    jwt_sign {| userId := None; sessionId := sid |} refreshTokenSignOptions
      (clock w) in
  jwt_verify token (secret refreshTokenSignOptions) (clock w + t)
  = Some {| userId := None; sessionId := sid |} ->
  let w1 := advance t (after (login d) w) in
  (exists r,
     outcome (login d) w = Return r /\ LoginResult.refreshToken r = token)
  /\ (t < JWT_REFRESH_EXPIRES_IN ->
      exists r',
        outcome (refreshToken token) w1 = Return r'
        /\ RefreshResult.accessToken r' =
             jwt_sign {| userId := Some (u_id u); sessionId := sid |}
               accessTokenSignOptions (clock w + t)
        /\ (is_Some (RefreshResult.newRefreshToken r')
            <-> JWT_REFRESH_EXPIRES_IN - t <= ONE_DAY_IN_MS))
  /\ (JWT_REFRESH_EXPIRES_IN <= t ->
      outcome (refreshToken token) w1 =
        Throw (Typed {| kind := Unauthorized; message := "Session expired";
                        errorCode := Some ACCESS_UNAUTHORIZED |})).
Proof.
  intros Hu Hc Hm Ht sid token Hv w1.
  pose proof (login_session d w u Hu Hc Hm) as Hlogin. cbn zeta in Hlogin.
  assert (Hclock : clock w1 = clock w + t).
  { subst w1. by rewrite (run_after _ _ _ _ Hlogin). }
  assert (Hs : sessions w1 !! sid
               = Some (opened u (LoginDto.userAgent d) (clock w))).
  { subst w1. rewrite (run_after _ _ _ _ Hlogin). cbn.
    by rewrite lookup_insert_eq. }
  rewrite <- Hclock in Hv.
  change sid with (sessionId {| userId := None; sessionId := sid |}) in Hs.
  split; [| split].
  - eexists. split; [exact (run_outcome _ _ _ _ Hlogin) | reflexivity].
  - intros Hlive.
    destruct (Z_le_gt_dec (JWT_REFRESH_EXPIRES_IN - t) ONE_DAY_IN_MS)
      as [Hday|Hday].
    + pose proof (refreshToken_rotate token w1 _ _ Hv Hs) as Hrun.
      cbn [sd_expiredAt opened] in Hrun. rewrite Hclock in Hrun.
      specialize (Hrun ltac:(lia) ltac:(lia)).
      eexists. split; [exact (run_outcome _ _ _ _ Hrun) |]. cbn.
      split; [reflexivity |]. split; [done | eauto].
    + pose proof (refreshToken_keep token w1 _ _ Hv Hs) as Hrun.
      cbn [sd_expiredAt opened] in Hrun. rewrite Hclock in Hrun.
      specialize (Hrun ltac:(lia)).
      eexists. split; [exact (run_outcome _ _ _ _ Hrun) |]. cbn.
      split; [reflexivity |]. split; [by intros [? ?] | lia].
  - intros Hgone.
    pose proof (refreshToken_expired token w1 _ _ Hv Hs) as Hrun.
    cbn [sd_expiredAt opened] in Hrun. rewrite Hclock in Hrun.
    specialize (Hrun ltac:(lia)).
    exact (run_outcome _ _ _ _ Hrun).
Qed.

(** Refreshing again right after a rotation, with the token that was
    presented: the rotation did not revoke it.  With a refresh lifetime of
    more than a day the second call succeeds without rotating again and
    leaves the sessions alone; with a positive lifetime of at most a day it
    rotates again; with a lifetime that is not positive the rotation itself
    ended the session and the second call fails with "Session expired". *)
Theorem refreshToken_after_rotation tok w p d :
  jwt_verify tok (secret refreshTokenSignOptions) (clock w) = Some p ->
  sessions w !! sessionId p = Some d ->
  clock w < sd_expiredAt d ->
  sd_expiredAt d - clock w <= ONE_DAY_IN_MS ->
  let w1 := after (refreshToken tok) w in
  let w2 := after (refreshToken tok) w1 in
  (JWT_REFRESH_EXPIRES_IN <= 0 ->
   outcome (refreshToken tok) w1 =
     Throw (Typed {| kind := Unauthorized; message := "Session expired";
                     errorCode := Some ACCESS_UNAUTHORIZED |}))
  /\ (0 < JWT_REFRESH_EXPIRES_IN ->
      exists r,
        outcome (refreshToken tok) w1 = Return r
        /\ RefreshResult.accessToken r =
             jwt_sign {| userId := Some (sd_userId d);
                         sessionId := sessionId p |}
               accessTokenSignOptions (clock w)
        /\ (is_Some (RefreshResult.newRefreshToken r)
            <-> JWT_REFRESH_EXPIRES_IN <= ONE_DAY_IN_MS))
  /\ (ONE_DAY_IN_MS < JWT_REFRESH_EXPIRES_IN -> sessions w2 = sessions w1).
Proof.
  intros Hv Hs Hlive Hday w1 w2. subst w2.
  pose proof (refreshToken_rotate tok w p d Hv Hs Hlive Hday) as Hfirst.
  assert (Hclock : clock w1 = clock w).
  { subst w1. by rewrite (run_after _ _ _ _ Hfirst). }
  assert (Hs1 : sessions w1 !! sessionId p = Some (rotated d (clock w))).
  { subst w1. rewrite (run_after _ _ _ _ Hfirst). cbn.
    by rewrite lookup_insert_eq. }
  rewrite <- Hclock in Hv. clearbody w1. split; [| split].
  - intros Hneg.
    pose proof (refreshToken_expired tok w1 p _ Hv Hs1) as Hrun.
    cbn [sd_expiredAt rotated] in Hrun. rewrite Hclock in Hrun.
    specialize (Hrun ltac:(lia)). exact (run_outcome _ _ _ _ Hrun).
  - intros Hpos.
    destruct (Z_le_gt_dec JWT_REFRESH_EXPIRES_IN ONE_DAY_IN_MS) as [Hle|Hgt].
    + pose proof (refreshToken_rotate tok w1 p _ Hv Hs1) as Hrun.
      cbn [sd_expiredAt sd_userId rotated] in Hrun. rewrite Hclock in Hrun.
      specialize (Hrun ltac:(lia) ltac:(lia)).
      eexists. split; [exact (run_outcome _ _ _ _ Hrun) |]. cbn.
      split; [reflexivity |]. split; [done | eauto].
    + pose proof (refreshToken_keep tok w1 p _ Hv Hs1) as Hrun.
      cbn [sd_expiredAt sd_userId rotated] in Hrun. rewrite Hclock in Hrun.
      specialize (Hrun ltac:(lia)).
      eexists. split; [exact (run_outcome _ _ _ _ Hrun) |]. cbn.
      split; [reflexivity |]. split; [by intros [? ?] | lia].
  - intros Hlong.
    pose proof (refreshToken_keep tok w1 p _ Hv Hs1) as Hrun.
    cbn [sd_expiredAt rotated] in Hrun. rewrite Hclock in Hrun.
    specialize (Hrun ltac:(lia)).
    by rewrite (run_after _ _ _ _ Hrun).
Qed.

(** With a refresh lifetime of at most one day, in every world the service
    can reach, a [refreshToken] call that succeeds always rotates: it returns
    a new refresh token. *)
Theorem short_lifetime_always_rotates w tok r :
  reachable w ->
  JWT_REFRESH_EXPIRES_IN <= ONE_DAY_IN_MS ->
  outcome (refreshToken tok) w = Return r ->
  is_Some (RefreshResult.newRefreshToken r).
Proof.
  intros Hreach Hshort Hout. pose proof (reachable_bounded w Hreach) as Hb.
  refresh_branches tok w; use_run Hrun; try discriminate.
  - injection Hout as <-. cbn. eauto.
  - specialize (Hb _ _ Hs). lia.
Qed.

(** ** What gets signed *)

(** Every token a call signs names a session that is in the store once the
    call is over: an access payload carries the user id of that session and
    is signed under the access secret, a refresh payload carries no user id
    and is signed under the refresh secret.  [register] signs nothing. *)
Theorem signed_tokens_name_stored_sessions r w p key :
  EvJwtSign p key ∈ events_of w (after (serve r) w) ->
  exists d,
    sessions (after (serve r) w) !! sessionId p = Some d
    /\ ((userId p = Some (sd_userId d) /\ key = JWT_SECRET)
        \/ (userId p = None /\ key = JWT_REFRESH_SECRET))
    /\ forall d0, r <> Register d0.
Proof.
  intros Hin. destruct r as [d|d|tok].
  - rewrite after_serve_register in *. register_branches d w; use_run Hrun;
      revert Hin; events; intros Hin;
      repeat (apply elem_of_cons in Hin as [Hin|Hin]; [discriminate |]);
      by apply not_elem_of_nil in Hin.
  - rewrite after_serve_login in *. login_branches d w; use_run Hrun;
      revert Hin; events; intros Hin;
      repeat (apply elem_of_cons in Hin as [Hin|Hin];
              [first [discriminate | injection Hin as -> ->] |]);
      try (by apply not_elem_of_nil in Hin);
      (eexists; cbn; rewrite lookup_insert_eq; split; [reflexivity |];
       split; [| done]; cbn; auto).
  - rewrite after_serve_refresh in *. refresh_branches tok w; use_run Hrun;
      revert Hin; events; intros Hin;
      repeat (apply elem_of_cons in Hin as [Hin|Hin];
              [first [discriminate | injection Hin as -> ->] |]);
      try (by apply not_elem_of_nil in Hin).
    + eexists. cbn. rewrite lookup_insert_eq. split; [reflexivity |].
      split; [| done]. cbn. auto.
    + eexists. cbn. rewrite lookup_insert_eq. split; [reflexivity |].
      split; [| done]. cbn. auto.
    + exists d. cbn. split; [done |]. split; [| done]. auto.
Qed.

End Further.

(** * The further properties on concrete inputs *)

Section FurtherInstances.
#[local] Existing Instance Fixture.deps.

(** A verifying token for session 9, which the store does not hold. *)
Lemma refreshToken_unknown_session_witness :
  outcome (refreshToken "refresh-key.-.9.9000") (Fixture.world 1000 5000)
  = Throw (Typed {| kind := Unauthorized; message := "Session does not exist";
                    errorCode := Some ACCESS_UNAUTHORIZED |})
  /\ sessions (after (refreshToken "refresh-key.-.9.9000")
                 (Fixture.world 1000 5000))
     = sessions (Fixture.world 1000 5000).
Proof.
  destruct (refreshToken_unknown_session "refresh-key.-.9.9000"
              (Fixture.world 1000 5000) (refresh_payload 9))
    as (Hout & _ & Hsess & _).
  - vm_compute. reflexivity.
  - vm_compute. reflexivity.
  - split; [exact Hout | exact Hsess].
Defined.

(** The session of [ada] through a rotation. *)
Lemma session_keeps_its_owner_witness :
  exists d',
    sessions (after (serve (RefreshToken (Fixture.refresh_7 9000)))
                (Fixture.world 1000 5000)) !! 7%N = Some d'
    /\ sd_userId d' = 1%N
    /\ sd_userAgent d' = "curl".
Proof.
  apply (session_keeps_its_owner (RefreshToken (Fixture.refresh_7 9000))
           (Fixture.world 1000 5000) 7%N (Fixture.curl_session 5000)).
  vm_compute. reflexivity.
Defined.

(** The login of [ada]: the result names the user the store found. *)
Lemma login_opens_session_only_after_checks_witness :
  exists u,
    Some Fixture.ada = Some u
    /\ lookup_user (LoginDto.email Fixture.ada_login) (Fixture.world 1000 5000)
       = Some u
    /\ compareValue (LoginDto.password Fixture.ada_login) (u_password u)
       = true.
Proof.
  apply (proj1 (proj2 (login_opens_session_only_after_checks
                         Fixture.ada_login (Fixture.world 1000 5000)))
           {| LoginResult.user := Some Fixture.ada;
              LoginResult.mfaRequired := false;
              LoginResult.accessToken := "access-key.1.8.901000";
              LoginResult.refreshToken := "refresh-key.-.8.2592001000" |}).
  - vm_compute. reflexivity.
  - reflexivity.
Defined.

(** The collections a month after the first login. *)
Lemma reachable_collections_consistent_witness :
  NoDup (u_email <$> users Fixture.month_later)
  /\ forall id d, sessions Fixture.month_later !! id = Some d ->
       exists u, u ∈ users Fixture.month_later /\ u_id u = sd_userId d.
Proof.
  destruct (reachable_collections_consistent Fixture.month_later
              month_later_reachable) as (Hmail & _ & Hsess & _).
  split; [exact Hmail | exact Hsess].
Defined.

(** [eve] registers, then someone registers her email again. *)
Lemma register_twice_witness :
  outcome
    (register {| RegisterDto.name := "Mallory";
                 RegisterDto.email := "eve@example.org";
                 RegisterDto.password := "pear" |})
    (after (register Fixture.eve_register) (Fixture.world 1000 5000))
  = Throw (Typed {| kind := BadRequest;
                    message := "User already exists with this email";
                    errorCode := Some AUTH_EMAIL_ALREADY_EXISTS |})
  /\ length (users (after (register Fixture.eve_register)
                      (Fixture.world 1000 5000))) = 3%nat.
Proof.
  destruct (register_twice Fixture.eve_register
              {| RegisterDto.name := "Mallory";
                 RegisterDto.email := "eve@example.org";
                 RegisterDto.password := "pear" |}
              (Fixture.world 1000 5000)) as (Hout & _ & _ & Hlen).
  - apply lookup_user_None. vm_compute. reflexivity.
  - reflexivity.
  - split; [exact Hout | exact Hlen].
Defined.

(** [eve] registers and logs in. *)
Lemma register_then_login_witness :
  exists r sid,
    outcome (login (login_of Fixture.eve_register "lynx"))
      (after (register Fixture.eve_register) (Fixture.world 1000 5000))
    = Return r
    /\ LoginResult.mfaRequired r = false
    /\ sessions (after (register Fixture.eve_register)
                   (Fixture.world 1000 5000)) !! sid = None.
Proof.
  destruct (register_then_login Fixture.eve_register "lynx"
              (Fixture.world 1000 5000))
    as (r & sid & _ & Hout & _ & Hmfa & Hfree & _).
  - apply lookup_user_None. vm_compute. reflexivity.
  - vm_compute. reflexivity.
  - reflexivity.
  - exists r, sid. split; [exact Hout |]. split; [exact Hmfa | exact Hfree].
Defined.

(** [ada] logs in and refreshes a day later: no rotation yet. *)
Lemma login_then_refreshToken_witness :
  exists r',
    outcome (refreshToken "refresh-key.-.8.2592001000")
      (advance Fixture.DAY
         (after (login Fixture.ada_login) (Fixture.world 1000 5000)))
    = Return r'
    /\ RefreshResult.accessToken r' = "access-key.1.8.87301000"
    /\ ~ is_Some (RefreshResult.newRefreshToken r').
Proof.
  destruct (login_then_refreshToken Fixture.ada_login
              (Fixture.world 1000 5000) Fixture.ada Fixture.DAY)
    as (_ & Hlive & _).
  - vm_compute. reflexivity.
  - vm_compute. reflexivity.
  - vm_compute. reflexivity.
  - vm_compute. discriminate.
  - vm_compute. reflexivity.
  - destruct Hlive as (r' & Hout & Hacc & Hnew).
    + vm_compute. reflexivity.
    + exists r'. split; [exact Hout |]. split; [exact Hacc |].
      intros Hsome. apply Hnew in Hsome. vm_compute in Hsome. by apply Hsome.
Defined.

(** A second refresh right after the rotation of session 7. *)
Lemma refreshToken_after_rotation_witness :
  sessions
    (after (refreshToken (Fixture.refresh_7 9000))
       (after (refreshToken (Fixture.refresh_7 9000))
          (Fixture.world 1000 5000)))
  = sessions
      (after (refreshToken (Fixture.refresh_7 9000))
         (Fixture.world 1000 5000)).
Proof.
  destruct (refreshToken_after_rotation (Fixture.refresh_7 9000)
              (Fixture.world 1000 5000) (refresh_payload 7)
              (Fixture.curl_session 5000)) as (_ & _ & Hsame).
  - vm_compute. reflexivity.
  - vm_compute. reflexivity.
  - vm_compute. reflexivity.
  - vm_compute. discriminate.
  - apply Hsame. vm_compute. reflexivity.
Defined.

Lemma half_hour_later_reachable :
  reachable (H := Fixture.short_deps) Shortlived.half_hour_later.
Proof.
  exists 0. unfold Shortlived.half_hour_later, Shortlived.logged_in,
    Shortlived.signed_up.
  eapply rtc_r.
  - eapply rtc_r; [apply rtc_once; apply step_serve | apply step_serve].
  - apply step_tick. vm_compute. discriminate.
Defined.

(** A lifetime of one hour: the refresh half an hour after the login
    rotates. *)
Lemma short_lifetime_always_rotates_witness :
  is_Some
    (RefreshResult.newRefreshToken
       {| RefreshResult.accessToken := "access-key.0.0.2700000";
          RefreshResult.newRefreshToken := Some "refresh-key.-.0.5400000" |}).
Proof.
  apply (short_lifetime_always_rotates (H := Fixture.short_deps)
           Shortlived.half_hour_later Shortlived.refresh_token).
  - exact half_hour_later_reachable.
  - vm_compute. discriminate.
  - vm_compute. reflexivity.
Defined.

(** The access token signed by the login of [ada]. *)
Lemma signed_tokens_name_stored_sessions_witness :
  exists d,
    sessions (after (serve (Login Fixture.ada_login))
                (Fixture.world 1000 5000)) !! 8%N = Some d
    /\ sd_userId d = 1%N.
Proof.
  destruct (signed_tokens_name_stored_sessions (Login Fixture.ada_login)
              (Fixture.world 1000 5000) (access_payload 1 8) "access-key")
    as (d & Hd & [[Huser _] | [Hnone _]] & _).
  - vm_compute. repeat constructor.
  - exists d. split; [exact Hd |]. cbn in Huser. congruence.
  - discriminate.
Defined.

End FurtherInstances.

(** * Failures of the collaborators *)

Section Failing.
Context `{Deps}.







(** Without failing collaborators the methods are the ones above. *)
Lemma register_under_no_faults d : register_under no_faults d = register d.
Proof. reflexivity. Qed.

Lemma login_under_no_faults d : login_under no_faults d = login d.
Proof. reflexivity. Qed.

Lemma refreshToken_under_no_faults tok :
  refreshToken_under no_faults tok = refreshToken tok.
Proof. reflexivity. Qed.

Lemma serve_under_no_faults r : serve_under no_faults r = serve r.
Proof. by destruct r. Qed.







(** ** What a failed call leaves behind *)





End Failing.

(** * Failing collaborators on concrete inputs *)

Section FailingInstances.
#[local] Existing Instance Fixture.deps.




(** A registration whose verification code cannot be created: the call
    fails, the user stays, without a code. *)
Example register_keeps_user_without_code :
  let w := Fixture.world 1000 5000 in
  let w' :=
    after (register_under Outage.at_code_creation Fixture.eve_register) w in
  outcome (register_under Outage.at_code_creation Fixture.eve_register) w
  = Throw Outage.connection_lost
  /\ users w' = users w ++ [enrolled Fixture.eve_register w]
  /\ verificationCodes w' = [].
Proof. split_and!; vm_compute; reflexivity. Qed.

(** A login whose access token cannot be signed: the call fails, the
    session stays. *)
Example login_keeps_session_without_tokens :
  let w := Fixture.world 1000 5000 in
  let w' := after (login_under Outage.at_signing Fixture.ada_login) w in
  outcome (login_under Outage.at_signing Fixture.ada_login) w
  = Throw Outage.bad_key
  /\ sessions w' !! 8%N
     = Some (opened Fixture.ada "firefox" 1000).
Proof. split; vm_compute; reflexivity. Qed.

End FailingInstances.
